(** * dbt-test-coverage: the coverage analyser of [coverage.py]

    A shallow embedding of [src/dbt_test_coverage/coverage.py] and
    [exceptions.py], followed by the properties of the analysis that the
    specification states.

    Conventions of the embedding:
    - Python dictionaries that are looked up and updated by key
      ([model_details], [columns_test], [config], [kwargs]) are [gmap]s;
      the dictionaries of the manifest, which the code iterates in
      insertion order, are association lists.
    - Python [set]s are [gset]s.
    - Python [float]s are IEEE 754 binary64 numbers, i.e. Rocq's primitive
      [float]s.
    - A raised exception is the left summand of [result]; an exception of
      another package that the code lets through is an [OtherException]. *)

From Stdlib Require Import Floats Uint63 ZArith Ascii String.
From stdpp Require Import gmap strings list fin_maps.

Local Open Scope string_scope.

(** ** exceptions.py *)

(** What a call can raise: one of the two concrete subclasses of
    [DbtTestCoverageError], with the message it is raised with, or an
    exception of another package, which the code neither raises nor catches
    and which is known by its class name and message. *)
Inductive Exception : Type :=
  | ManifestNotFoundError (msg : string)
  | InvalidManifestError (msg : string)
  | OtherException (class_name msg : string).

(** A computation that either raises or returns. *)
Definition result (A : Type) : Type := Exception + A.

Definition raise {A : Type} (e : Exception) : result A := inl e.

#[global] Instance result_ret : MRet result := λ A x, inr x.
#[global] Instance result_bind : MBind result := λ A B f m,
  match m with
  | inl e => inl e
  | inr x => f x
  end.

(** ** The manifest objects the analyser reads *)

(** [node.contract]; a missing [enforced] attribute reads as [False]
    ([getattr(node.contract, "enforced", False)]). *)
Module Contract.
Record t : Type := mk { enforced : bool }.
End Contract.

(** [test_node.test_metadata]. *)
Module TestMetadata.
Record t : Type := mk { kwargs : gmap string string }.
End TestMetadata.

(** A manifest node. Attributes the code probes with [hasattr]/[getattr]
    are optional:
    - [tags] and [columns] hold the default the code substitutes when the
      attribute is absent (the empty list); [columns] lists the keys of the
      node's column mapping in order;
    - [contract] is [None] when the attribute is absent or is [None];
    - [column_name] is [None] when the attribute is absent or is [None];
    - [test_metadata] is [None] when the attribute is absent, [Some None]
      when it is present and [None]. *)
Module Node.
Record t : Type := mk {
  name : string;
  resource_type : string;
  package_name : string;
  original_file_path : string;
  tags : list string;
  config : gmap string string;
  columns : list string;
  contract : option Contract.t;
  depends_on_nodes : list string;
  column_name : option string;
  test_metadata : option (option TestMetadata.t);
}.

Definition set_contract (c : option Contract.t) (n : t) : t :=
  mk (name n) (resource_type n) (package_name n) (original_file_path n)
     (tags n) (config n) (columns n) c (depends_on_nodes n) (column_name n)
     (test_metadata n).
End Node.

Module UnitTest.
Record t : Type := mk { model : string; package_name : string }.
End UnitTest.

Module Manifest.
Record t : Type := mk {
  nodes : list (string * Node.t);
  unit_tests : list (string * UnitTest.t);
}.
End Manifest.

(** [d.values()] and [d.get(k)] on an insertion-ordered dictionary. *)
Definition values {A : Type} (d : list (string * A)) : list A := snd <$> d.

Fixpoint get {A : Type} (k : string) (d : list (string * A)) : option A :=
  match d with
  | [] => None
  | (k', v) :: d' => if bool_decide (k' = k) then Some v else get k d'
  end.

(** ** The result structures *)

Module ModelDetail.
Record t : Type := mk {
  path : string;
  unit_tests : nat;
  has_contract : bool;
  contract_enforced : bool;
  contract_issues : list string;
  columns : list string;
  columns_test : gmap string bool;
  total_columns : nat;
  tested_columns : nat;
  coverage_pct : float;
  unit_test_pct : float;
}.

Definition set_columns_test (ct : gmap string bool) (d : t) : t :=
  mk (path d) (unit_tests d) (has_contract d) (contract_enforced d)
     (contract_issues d) (columns d) ct (total_columns d)
     (tested_columns d) (coverage_pct d) (unit_test_pct d).

Definition set_coverage (tested : nat) (pct : float) (d : t) : t :=
  mk (path d) (unit_tests d) (has_contract d) (contract_enforced d)
     (contract_issues d) (columns d) (columns_test d) (total_columns d)
     tested pct (unit_test_pct d).

Definition set_contract_issues (issues : list string) (d : t) : t :=
  mk (path d) (unit_tests d) (has_contract d) (contract_enforced d)
     issues (columns d) (columns_test d) (total_columns d)
     (tested_columns d) (coverage_pct d) (unit_test_pct d).
End ModelDetail.

Module UnitTestStats.
Record t : Type := mk { total_models : nat; models_with_unit_tests : nat }.
End UnitTestStats.

Module ContractIssue.
Record t : Type := mk { model : string; issues : list string }.
End ContractIssue.

Module ContractStats.
Record t : Type := mk {
  with_contracts : nat;
  without_contracts : nat;
  contract_issues : list ContractIssue.t;
}.
End ContractStats.

(** An entry of the [column_stats] dictionary. *)
Module ColumnStat.
Record t : Type := mk { tested : nat; total : nat }.
End ColumnStat.

(** ** Python primitives *)

(** Truth value of a sequence and of an optional string. *)
Definition truthy {A : Type} (l : list A) : bool :=
  match l with [] => false | _ :: _ => true end.

Definition truthy_str (s : option string) : bool :=
  match s with
  | Some s => negb (bool_decide (s = ""))
  | None => false
  end.

(** [int] to [float], exact below 2^53. *)
Definition float_of_nat (n : nat) : float :=
  PrimFloat.of_uint63 (Uint63.of_Z (Z.of_nat n)).

(** ** The file system

    What [_load_manifest] finds at a path: nothing; a file that [json.load]
    rejects with [JSONDecodeError]; JSON that [Manifest.from_dict] rejects
    with [DbtRuntimeError]; a file at which [open], [json.load] or
    [Manifest.from_dict] raises an exception of any other class (such as
    mashumaro's [InvalidFieldValue], for JSON that does not have the shape
    of a manifest); or a manifest. *)
Inductive PathContent : Type :=
  | NoFile
  | NotJSON (err : string)
  | NotManifest (err : string)
  | RaisesOther (class_name err : string)
  | ManifestFile (manifest : Manifest.t).

Definition FileSystem : Type := string → PathContent.

(** ** coverage.py *)

Definition _load_manifest (fs : FileSystem) (manifest_path : string)
  : result Manifest.t :=
  match fs manifest_path with
  | NoFile => raise (ManifestNotFoundError ("Manifest not found: " +:+ manifest_path))
  | NotJSON e => raise (InvalidManifestError ("Invalid JSON in manifest: " +:+ e))
  | NotManifest e => raise (InvalidManifestError ("Failed to parse manifest: " +:+ e))
  | RaisesOther class_name e => raise (OtherException class_name e)
  | ManifestFile manifest => mret manifest
  end.

Section Coverage.

(** [fnmatch.fnmatch] of the Python standard library. *)
Variable fnmatch : string → string → bool.

Definition _passes_filters (node : Node.t)
    (model_names model_paths has_tags : list string) (any_tag : bool)
    (exclude_tags : list string) (test_type : string) : bool :=
  if truthy model_names
     && negb (existsb (fnmatch (Node.name node)) model_names)
  then false else
  if truthy model_paths
     && negb (existsb (fnmatch (Node.original_file_path node)) model_paths)
  then false else
  let node_tags : gset string := list_to_set (Node.tags node) in
  if truthy has_tags
     && (if any_tag
         then negb (bool_decide (list_to_set has_tags ∩ node_tags ≠ ∅))
         else negb (bool_decide (list_to_set has_tags ⊆ node_tags)))
  then false else
  if truthy exclude_tags
     && bool_decide (list_to_set exclude_tags ∩ node_tags ≠ ∅)
  then false else
  if bool_decide (Node.resource_type node = "test")
     && negb (bool_decide (test_type = "all"))
  then
    let is_generic_test := bool_decide (is_Some (Node.test_metadata node)) in
    if bool_decide (test_type = "singular") && is_generic_test then false
    else if bool_decide (test_type = "generic") && negb is_generic_test
    then false
    else true
  else true.

(** The first loop (lines 35-48): the nodes that pass the filters, in order. *)
Definition filter_nodes (manifest : Manifest.t)
    (model_names model_paths has_tags : list string) (any_tag : bool)
    (exclude_tags : list string) (test_type : string) : list Node.t :=
  filter (λ node, _passes_filters node model_names model_paths has_tags
                                  any_tag exclude_tags test_type)
         (values (Manifest.nodes manifest)).

(** The test of the second loop (lines 52-56). *)
Definition is_analyzed (package_name : string) (node : Node.t) : bool :=
  bool_decide (Node.resource_type node = "model")
  && bool_decide (Node.package_name node = package_name)
  && bool_decide (Node.config node !! "materialized" ≠ Some "ephemeral").

(** Unit test analysis (lines 61-65). *)
Definition unit_tests_of (manifest : Manifest.t) (package_name : string)
    (node : Node.t) : list UnitTest.t :=
  filter (λ test, UnitTest.model test = Node.name node
                  ∧ UnitTest.package_name test = package_name)
         (values (Manifest.unit_tests manifest)).

(** Contract analysis (lines 68-73). *)
Definition has_contract (node : Node.t) : bool :=
  bool_decide (is_Some (Node.contract node)).

Definition contract_enforced (node : Node.t) : bool :=
  has_contract node && from_option Contract.enforced false (Node.contract node).

Definition contract_issues (node : Node.t) : list string :=
  if has_contract node && negb (contract_enforced node)
  then ["Contract not enforced"]
  else [].

(** The dictionary stored at [model_details[node.name]] (lines 75-87). *)
Definition model_detail (manifest : Manifest.t) (package_name : string)
    (node : Node.t) : ModelDetail.t :=
  let columns := Node.columns node in
  let unit_tests := unit_tests_of manifest package_name node in
  {| ModelDetail.path := Node.original_file_path node;
     ModelDetail.unit_tests := length unit_tests;
     ModelDetail.has_contract := contract_enforced node;
     ModelDetail.contract_enforced := contract_enforced node;
     ModelDetail.contract_issues := contract_issues node;
     ModelDetail.columns := Node.columns node;
     ModelDetail.columns_test :=
       foldl (λ columns_test col, <[col := false]> columns_test) ∅ columns;
     ModelDetail.total_columns := length columns;
     ModelDetail.tested_columns := 0;
     ModelDetail.coverage_pct := 0%float;
     ModelDetail.unit_test_pct :=
       if truthy unit_tests then 100%float else 0%float |}.

(** The three structures the second loop accumulates. *)
Definition Accumulated : Type :=
  UnitTestStats.t * ContractStats.t * gmap string ModelDetail.t.

(** The body of the second loop (lines 52-101). *)
Definition analyze_node (manifest : Manifest.t) (package_name : string)
    (acc : Accumulated) (node : Node.t) : Accumulated :=
  let '(unit_test_stats, contract_stats, model_details) := acc in
  if is_analyzed package_name node then
    let unit_tests := unit_tests_of manifest package_name node in
    let model_details :=
      <[Node.name node := model_detail manifest package_name node]>
        model_details in
    (* Update stats *)
    let unit_test_stats :=
      {| UnitTestStats.total_models :=
           UnitTestStats.total_models unit_test_stats + 1;
         UnitTestStats.models_with_unit_tests :=
           if truthy unit_tests
           then UnitTestStats.models_with_unit_tests unit_test_stats + 1
           else UnitTestStats.models_with_unit_tests unit_test_stats |} in
    let contract_stats :=
      if contract_enforced node then
        {| ContractStats.with_contracts :=
             ContractStats.with_contracts contract_stats + 1;
           ContractStats.without_contracts :=
             ContractStats.without_contracts contract_stats;
           ContractStats.contract_issues :=
             if truthy (contract_issues node)
             then (ContractStats.contract_issues contract_stats
                   ++ [ {| ContractIssue.model := Node.name node;
                           ContractIssue.issues := contract_issues node |} ])%list
             else ContractStats.contract_issues contract_stats |}
      else
        {| ContractStats.with_contracts :=
             ContractStats.with_contracts contract_stats;
           ContractStats.without_contracts :=
             ContractStats.without_contracts contract_stats + 1;
           ContractStats.contract_issues :=
             ContractStats.contract_issues contract_stats |} in
    (unit_test_stats, contract_stats, model_details)
  else acc.

(** The second loop (lines 51-101), from the initial values of lines 30-32. *)
Definition analyze_nodes (manifest : Manifest.t) (package_name : string)
    (filtered_nodes : list Node.t) : Accumulated :=
  foldl (analyze_node manifest package_name)
        (UnitTestStats.mk 0 0, ContractStats.mk 0 0 [], ∅)
        filtered_nodes.

(** [if col in model_details[name]["columns_test"]:
       model_details[name]["columns_test"][col] = True] *)
Definition mark_tested (name col : string)
    (model_details : gmap string ModelDetail.t)
  : gmap string ModelDetail.t :=
  match model_details !! name with
  | Some detail =>
      let columns_test := ModelDetail.columns_test detail in
      if bool_decide (is_Some (columns_test !! col))
      then <[name :=
               ModelDetail.set_columns_test (<[col := true]> columns_test)
                                            detail]> model_details
      else model_details
  | None => model_details
  end.

(** The body of the loop over [test_node.depends_on.nodes] (lines 193-204). *)
Definition analyze_dependency (manifest : Manifest.t) (test_node : Node.t)
    (model_details : gmap string ModelDetail.t) (model_id : string)
  : gmap string ModelDetail.t :=
  match get model_id (Manifest.nodes manifest) with
  | Some model_node =>
      if bool_decide (is_Some (model_details !! Node.name model_node)) then
        if truthy_str (Node.column_name test_node) then
          mark_tested (Node.name model_node)
                      (default "" (Node.column_name test_node))
                      model_details
        else
          match Node.test_metadata test_node with
          | Some (Some test_metadata) =>
              match TestMetadata.kwargs test_metadata !! "column" with
              | Some col =>
                  mark_tested (Node.name model_node) col model_details
              | None => model_details
              end
          | _ => model_details
          end
      else model_details
  | None => model_details
  end.

Definition _analyze_column_tests (manifest : Manifest.t)
    (model_details : gmap string ModelDetail.t)
  : gmap string ModelDetail.t :=
  foldl (λ model_details test_node,
           if bool_decide (Node.resource_type test_node = "test")
           then foldl (analyze_dependency manifest test_node) model_details
                      (Node.depends_on_nodes test_node)
           else model_details)
        model_details (values (Manifest.nodes manifest)).

(** [sum(1 for tested in columns_test.values() if tested)] *)
Definition count_tested (columns_test : gmap string bool) : nat :=
  sum_list ((λ _, 1) <$> filter (λ tested : bool, tested)
                                (snd <$> map_to_list columns_test)).

(** The first two statements of the loop of [_calculate_coverage_stats]. *)
Definition calculate_model (model : ModelDetail.t) : ModelDetail.t :=
  let tested_columns := count_tested (ModelDetail.columns_test model) in
  ModelDetail.set_coverage tested_columns
    (if bool_decide (0 < ModelDetail.total_columns model)
     then (float_of_nat tested_columns
           / float_of_nat (ModelDetail.total_columns model) * 100)%float
     else 0%float)
    model.

(** The inner loop of [_calculate_coverage_stats]; a missing key of the
    [defaultdict] reads as [{"tested": 0, "total": 0}]. *)
Definition count_column (col : string) (tested : bool)
    (column_stats : gmap string ColumnStat.t) : gmap string ColumnStat.t :=
  let stat := default (ColumnStat.mk 0 0) (column_stats !! col) in
  <[col := {| ColumnStat.tested :=
                if tested then ColumnStat.tested stat + 1
                else ColumnStat.tested stat;
              ColumnStat.total := ColumnStat.total stat + 1 |}]>
    column_stats.

(** Both dictionaries are updated in place; the new values are returned. *)
Definition _calculate_coverage_stats
    (model_details : gmap string ModelDetail.t)
    (column_stats : gmap string ColumnStat.t)
  : gmap string ModelDetail.t * gmap string ColumnStat.t :=
  let model_details := calculate_model <$> model_details in
  (model_details,
   map_fold (λ _ model column_stats,
               map_fold count_column column_stats
                        (ModelDetail.columns_test model))
            column_stats model_details).

Definition analyze_unit_tests_and_contracts (fs : FileSystem)
    (manifest_path package_name : string)
    (model_names model_paths has_tags : list string) (any_tag : bool)
    (exclude_tags : list string) (test_type : string)
  : result (UnitTestStats.t * ContractStats.t * gmap string ModelDetail.t) :=
  manifest ← _load_manifest fs manifest_path;
  let column_stats : gmap string ColumnStat.t := ∅ in
  let filtered_nodes :=
    filter_nodes manifest model_names model_paths has_tags any_tag
                 exclude_tags test_type in
  manifest ← _load_manifest fs manifest_path;
  let '(unit_test_stats, contract_stats, model_details) :=
    analyze_nodes manifest package_name filtered_nodes in
  (* Second pass: identify tested columns *)
  let model_details := _analyze_column_tests manifest model_details in
  (* Calculate coverage stats *)
  let '(model_details, column_stats) :=
    _calculate_coverage_stats model_details column_stats in
  mret (unit_test_stats, contract_stats, model_details).

End Coverage.

(** ** Notions used in the statements *)

(** The column a test node points at (the conditions of lines 195 and
    200-202): its truthy [column_name], otherwise the [column] argument of
    its truthy [test_metadata]. *)
Definition column_signal (test_node : Node.t) : option string :=
  if truthy_str (Node.column_name test_node) then Node.column_name test_node
  else
    match Node.test_metadata test_node with
    | Some (Some test_metadata) =>
        TestMetadata.kwargs test_metadata !! "column"
    | _ => None
    end.

(** What [mark_tested] does to the detail of the model it finds. *)
Definition mark_column (col : string) (detail : ModelDetail.t)
  : ModelDetail.t :=
  if bool_decide (is_Some (ModelDetail.columns_test detail !! col))
  then ModelDetail.set_columns_test
         (<[col := true]> (ModelDetail.columns_test detail)) detail
  else detail.

(** The (model name, column) pairs that [_analyze_column_tests] visits, in
    order: one for every dependency of a test node that resolves to a node,
    when the test points at a column. *)
Definition column_marks (manifest : Manifest.t) : list (string * string) :=
  test_node ← values (Manifest.nodes manifest);
  if bool_decide (Node.resource_type test_node = "test") then
    model_id ← Node.depends_on_nodes test_node;
    match get model_id (Manifest.nodes manifest), column_signal test_node with
    | Some model_node, Some col => [(Node.name model_node, col)]
    | _, _ => []
    end
  else [].

(** Marking the pairs of a list, in order. *)
Definition apply_marks (marks : list (string * string))
    (model_details : gmap string ModelDetail.t) : gmap string ModelDetail.t :=
  foldl (λ model_details mark, mark_tested mark.1 mark.2 model_details)
        model_details marks.

(** A detail [detail'] extends [detail] when it differs at most in marks:
    every field but [columns_test] is the same, [columns_test] has the same
    keys, and what was marked stays marked. *)
Definition extends (detail detail' : ModelDetail.t) : Prop :=
  detail' = ModelDetail.set_columns_test (ModelDetail.columns_test detail')
                                         detail
  ∧ dom (ModelDetail.columns_test detail')
    = dom (ModelDetail.columns_test detail)
  ∧ ∀ col, ModelDetail.columns_test detail !! col = Some true →
           ModelDetail.columns_test detail' !! col = Some true.

(** [model_details'] has the keys of [model_details], and each of its
    details extends the one it replaces. *)
Definition marks_only
    (model_details model_details' : gmap string ModelDetail.t) : Prop :=
  ∀ name, option_Forall2 extends (model_details !! name)
                                 (model_details' !! name).

(** ** Concrete manifests

    The wildcard fragment of [fnmatch] (literal characters, [?] and [*]),
    used to run the analyser on the manifests below. *)
Fixpoint wildcard (pattern : string) : string → bool :=
  match pattern with
  | EmptyString => λ s, bool_decide (s = "")
  | String c pattern' =>
      if bool_decide (c = "*"%char) then
        fix star (s : string) : bool :=
          wildcard pattern' s
          || match s with EmptyString => false | String _ s' => star s' end
      else if bool_decide (c = "?"%char) then
        λ s, match s with
             | EmptyString => false
             | String _ s' => wildcard pattern' s'
             end
      else
        λ s, match s with
             | EmptyString => false
             | String c' s' => bool_decide (c = c') && wildcard pattern' s'
             end
  end.

Definition fnmatch_wildcard (name pattern : string) : bool :=
  wildcard pattern name.

Definition a_model (name : string) (columns : list string)
    (contract : option Contract.t) : Node.t :=
  {| Node.name := name;
     Node.resource_type := "model";
     Node.package_name := "jaffle_shop";
     Node.original_file_path := "models/" +:+ name +:+ ".sql";
     Node.tags := [];
     Node.config := {[ "materialized" := "table" ]};
     Node.columns := columns;
     Node.contract := contract;
     Node.depends_on_nodes := [];
     Node.column_name := None;
     Node.test_metadata := None |}.

Definition a_column_test (name model_id column : string) : Node.t :=
  {| Node.name := name;
     Node.resource_type := "test";
     Node.package_name := "jaffle_shop";
     Node.original_file_path := "models/schema.yml";
     Node.tags := [];
     Node.config := ∅;
     Node.columns := [];
     Node.contract := None;
     Node.depends_on_nodes := [model_id];
     Node.column_name := Some column;
     Node.test_metadata := Some (Some (TestMetadata.mk ∅)) |}.

(** The scenario of the specification: one model [orders] with columns [id]
    and [status], one unit test on it and one generic test on [id]. *)
Definition orders_manifest : Manifest.t :=
  {| Manifest.nodes :=
       [ ("model.jaffle_shop.orders", a_model "orders" ["id"; "status"] None);
         ("test.jaffle_shop.not_null_orders_id",
          a_column_test "not_null_orders_id" "model.jaffle_shop.orders" "id") ];
     Manifest.unit_tests :=
       [ ("unit_test.jaffle_shop.orders.t",
          UnitTest.mk "orders" "jaffle_shop") ] |}.

Definition one_file (path : string) (manifest : Manifest.t) : FileSystem :=
  λ p, if bool_decide (p = path) then ManifestFile manifest else NoFile.

(** A model whose contract is declared but not enforced. *)
Definition unenforced_manifest : Manifest.t :=
  {| Manifest.nodes :=
       [ ("model.jaffle_shop.orders",
          a_model "orders" ["id"; "status"] (Some (Contract.mk false))) ];
     Manifest.unit_tests := [] |}.

(** A node tagged [a], [b] and [c], and one tagged [a] only. *)
Definition tagged (tags : list string) : Node.t :=
  {| Node.name := "orders";
     Node.resource_type := "model";
     Node.package_name := "jaffle_shop";
     Node.original_file_path := "models/orders.sql";
     Node.tags := tags;
     Node.config := {[ "materialized" := "table" ]};
     Node.columns := [];
     Node.contract := None;
     Node.depends_on_nodes := [];
     Node.column_name := None;
     Node.test_metadata := None |}.

Definition target_manifest : string := "target/manifest.json".

(** The generic test of [orders_manifest]. *)
Definition not_null_orders_id : Node.t :=
  a_column_test "not_null_orders_id" "model.jaffle_shop.orders" "id".

(** The nodes the second loop of the analysis works on (lines 51-56): the
    filtered nodes that are models of the package and not ephemeral. *)
Definition analyzed_nodes (fnmatch : string → string → bool)
    (manifest : Manifest.t) (package_name : string)
    (model_names model_paths has_tags : list string) (any_tag : bool)
    (exclude_tags : list string) (test_type : string) : list Node.t :=
  filter (λ node, is_analyzed package_name node)
         (filter_nodes fnmatch manifest model_names model_paths has_tags
                       any_tag exclude_tags test_type).

(** ** cli.py *)

(** [Path(path).exists()]. *)
Definition path_exists (fs : FileSystem) (path : string) : bool :=
  match fs path with
  | NoFile => false
  | _ => true
  end.

Definition search_paths : list string :=
  [ "target/manifest.json";
    "../target/manifest.json";
    "../../target/manifest.json" ].

Definition _find_manifest (fs : FileSystem) : option string :=
  find (path_exists fs) search_paths.

(** Lines 72-76 of [main]: [manifest_file or _find_manifest()], and the
    error raised when that is falsy. *)
Definition main_manifest_path (fs : FileSystem) (manifest_file : option string)
  : result string :=
  let manifest_path :=
    if truthy_str manifest_file then manifest_file else _find_manifest fs in
  if negb (truthy_str manifest_path)
  then raise (ManifestNotFoundError
                ("Could not find manifest.json automatically. "
                 +:+ "Please specify with --manifest"))
  else mret (default "" manifest_path).

(** Lines 72-98 of [main]: the manifest is located and analysed. What
    [main] does with the result (the report on the console, the JSON file,
    the exit) is not part of this definition. *)
Definition main_analysis (fnmatch : string → string → bool) (fs : FileSystem)
    (manifest_file : option string) (package : string)
    (model_name model_path has_tags : list string) (any_tag : bool)
    (exclude_tag : list string) (test_type : string)
  : result (UnitTestStats.t * ContractStats.t * gmap string ModelDetail.t) :=
  manifest_path ← main_manifest_path fs manifest_file;
  analyze_unit_tests_and_contracts fnmatch fs manifest_path package model_name
    model_path has_tags any_tag exclude_tag test_type.

(** [sum(...)] over floats, from the integer [0]. *)
Definition float_sum (l : list float) : float :=
  foldl PrimFloat.add 0%float l.

(** The exit code of [_check_thresholds]; the messages it prints are not
    modelled. [model_details] is the dictionary in insertion order, the order
    in which the coverages are summed. *)
Definition _check_thresholds (unit_stats : UnitTestStats.t)
    (contract_stats : ContractStats.t)
    (model_details : list (string * ModelDetail.t))
    (unit_thresh col_thresh contract_thresh : float) : nat :=
  let exit_code := 0 in
  (* Calculate coverages *)
  let unit_cov :=
    if bool_decide (UnitTestStats.total_models unit_stats ≠ 0)
    then (float_of_nat (UnitTestStats.models_with_unit_tests unit_stats)
          / float_of_nat (UnitTestStats.total_models unit_stats) * 100)%float
    else 0%float in
  let contract_total :=
    ContractStats.with_contracts contract_stats
    + ContractStats.without_contracts contract_stats in
  let contract_cov :=
    if bool_decide (contract_total ≠ 0)
    then (float_of_nat (ContractStats.with_contracts contract_stats)
          / float_of_nat contract_total * 100)%float
    else 0%float in
  let avg_col_cov :=
    if truthy model_details
    then (float_sum (ModelDetail.coverage_pct <$> values model_details)
          / float_of_nat (length model_details))%float
    else 0%float in
  (* Check thresholds *)
  let exit_code :=
    if PrimFloat.ltb 0 unit_thresh && PrimFloat.ltb unit_cov unit_thresh
    then 1 else exit_code in
  let exit_code :=
    if PrimFloat.ltb 0 col_thresh && PrimFloat.ltb avg_col_cov col_thresh
    then 1 else exit_code in
  let exit_code :=
    if PrimFloat.ltb 0 contract_thresh
       && PrimFloat.ltb contract_cov contract_thresh
    then 1 else exit_code in
  exit_code.

(** ** More concrete manifests *)

(** What the analysis of [orders_manifest] returns for [orders]. *)
Definition orders_detail : ModelDetail.t :=
  {| ModelDetail.path := "models/orders.sql";
     ModelDetail.unit_tests := 1;
     ModelDetail.has_contract := false;
     ModelDetail.contract_enforced := false;
     ModelDetail.contract_issues := [];
     ModelDetail.columns := ["id"; "status"];
     ModelDetail.columns_test := {[ "id" := true; "status" := false ]};
     ModelDetail.total_columns := 2;
     ModelDetail.tested_columns := 1;
     ModelDetail.coverage_pct := 50%float;
     ModelDetail.unit_test_pct := 100%float |}.

(** [orders_manifest] with its nodes in the other order. *)
Definition orders_manifest_reversed : Manifest.t :=
  {| Manifest.nodes := reverse (Manifest.nodes orders_manifest);
     Manifest.unit_tests := Manifest.unit_tests orders_manifest |}.

(** Two models that share the name [orders]. *)
Definition first_orders : Node.t := a_model "orders" ["id"] None.

Definition second_orders : Node.t :=
  a_model "orders" ["id"; "status"; "amount"] (Some (Contract.mk true)).

Definition duplicate_manifest : Manifest.t :=
  {| Manifest.nodes :=
       [ ("model.jaffle_shop.orders", first_orders);
         ("model.jaffle_shop.orders_v2", second_orders) ];
     Manifest.unit_tests := [] |}.

(** What the analysis of [duplicate_manifest] returns for [orders]: the
    detail of [second_orders]. *)
Definition duplicate_detail : ModelDetail.t :=
  {| ModelDetail.path := "models/orders.sql";
     ModelDetail.unit_tests := 0;
     ModelDetail.has_contract := true;
     ModelDetail.contract_enforced := true;
     ModelDetail.contract_issues := [];
     ModelDetail.columns := ["id"; "status"; "amount"];
     ModelDetail.columns_test :=
       {[ "id" := false; "status" := false; "amount" := false ]};
     ModelDetail.total_columns := 3;
     ModelDetail.tested_columns := 0;
     ModelDetail.coverage_pct := 0%float;
     ModelDetail.unit_test_pct := 0%float |}.

(** A file system with one file, whose JSON does not have the shape of a
    manifest: [json.load] reads it and [Manifest.from_dict] rejects it with
    mashumaro's [InvalidFieldValue], which is no [DbtRuntimeError]. *)
Definition schema_invalid_file (path err : string) : FileSystem :=
  λ p, if bool_decide (p = path)
       then RaisesOther "InvalidFieldValue" err
       else NoFile.

(** * Properties *)

(** ** The second pass *)

Lemma mark_tested_alter name col (model_details : gmap string ModelDetail.t) :
  mark_tested name col model_details = alter (mark_column col) name model_details.
Proof.
  unfold mark_tested, mark_column.
  apply map_eq; intros k.
  destruct (decide (name = k)) as [->|Hne].
  - rewrite lookup_alter_eq.
    destruct (model_details !! k) as [d|] eqn:Hk; simpl; [|by rewrite Hk].
    destruct (bool_decide _); [by rewrite lookup_insert_eq | by rewrite Hk].
  - rewrite lookup_alter_ne by done.
    destruct (model_details !! name) as [d|] eqn:Hk; [|done].
    destruct (bool_decide _); [by rewrite lookup_insert_ne | done].
Qed.

(** *** Marking one column *)

Lemma mark_column_extends col detail : extends detail (mark_column col detail).
Proof.
  unfold extends, mark_column. case_bool_decide as Hin.
  - destruct detail; simpl in *. split_and!; [done| |].
    + rewrite dom_insert_L. apply elem_of_dom in Hin.
      apply subseteq_union_1_L. by apply singleton_subseteq_l.
    + intros c Hc. destruct (decide (col = c)) as [->|];
        [by rewrite lookup_insert_eq | by rewrite lookup_insert_ne].
  - by destruct detail.
Qed.

Lemma mark_column_marks col detail :
  is_Some (ModelDetail.columns_test detail !! col) →
  ModelDetail.columns_test (mark_column col detail) !! col = Some true.
Proof.
  intros Hin. unfold mark_column. rewrite (bool_decide_eq_true_2 _ Hin).
  simpl. by rewrite lookup_insert_eq.
Qed.

Lemma mark_column_idemp col detail :
  mark_column col (mark_column col detail) = mark_column col detail.
Proof.
  unfold mark_column.
  destruct (bool_decide (is_Some (ModelDetail.columns_test detail !! col)))
    eqn:Hin; [|by rewrite Hin].
  simpl. rewrite bool_decide_eq_true_2 by (rewrite lookup_insert_eq; eauto).
  unfold ModelDetail.set_columns_test; simpl. by rewrite insert_insert_eq.
Qed.

Lemma mark_column_comm col1 col2 detail :
  mark_column col1 (mark_column col2 detail)
  = mark_column col2 (mark_column col1 detail).
Proof.
  destruct (decide (col1 = col2)) as [->|Hne]; [done|].
  unfold mark_column.
  destruct (bool_decide (is_Some (ModelDetail.columns_test detail !! col1)))
    eqn:H1,
    (bool_decide (is_Some (ModelDetail.columns_test detail !! col2))) eqn:H2;
    simpl; rewrite ?lookup_insert_ne, ?H1, ?H2 by done; simpl; try done.
  unfold ModelDetail.set_columns_test; simpl. f_equal.
  by apply insert_insert_ne.
Qed.

Lemma extends_refl detail : extends detail detail.
Proof. unfold extends. by destruct detail. Qed.

Lemma extends_trans d1 d2 d3 : extends d1 d2 → extends d2 d3 → extends d1 d3.
Proof.
  unfold extends. intros (E1 & D1 & M1) (E2 & D2 & M2). split_and!.
  - rewrite E2, E1 at 1. by destruct d1.
  - congruence.
  - auto.
Qed.

(** *** Marking in [model_details] *)

Lemma mark_tested_comm n1 c1 n2 c2 (md : gmap string ModelDetail.t) :
  mark_tested n1 c1 (mark_tested n2 c2 md)
  = mark_tested n2 c2 (mark_tested n1 c1 md).
Proof.
  rewrite !mark_tested_alter.
  destruct (decide (n1 = n2)) as [->|Hne].
  - rewrite !alter_alter_eq. apply alter_ext. intros d _; simpl.
    apply mark_column_comm.
  - by apply alter_alter_ne.
Qed.

Lemma mark_tested_idemp n c (md : gmap string ModelDetail.t) :
  mark_tested n c (mark_tested n c md) = mark_tested n c md.
Proof.
  rewrite !mark_tested_alter, alter_alter_eq. apply alter_ext.
  intros d _; simpl. apply mark_column_idemp.
Qed.

Lemma marks_only_refl md : marks_only md md.
Proof.
  intros name. destruct (md !! name); constructor. apply extends_refl.
Qed.

Lemma marks_only_trans md1 md2 md3 :
  marks_only md1 md2 → marks_only md2 md3 → marks_only md1 md3.
Proof.
  intros H12 H23 name. specialize (H12 name). specialize (H23 name).
  destruct H12 as [d1 d2 E12|]; inversion H23; subst; constructor.
  by eapply extends_trans.
Qed.

Lemma mark_tested_marks_only n c md : marks_only md (mark_tested n c md).
Proof.
  intros name. rewrite mark_tested_alter.
  destruct (decide (n = name)) as [->|Hne].
  - rewrite lookup_alter_eq. destruct (md !! name); constructor.
    apply mark_column_extends.
  - rewrite lookup_alter_ne by done. apply marks_only_refl.
Qed.

Lemma apply_marks_marks_only marks md : marks_only md (apply_marks marks md).
Proof.
  revert md. induction marks as [|[n c] marks IH]; intros md; simpl.
  - apply marks_only_refl.
  - eapply marks_only_trans; [apply mark_tested_marks_only | apply IH].
Qed.

Lemma apply_marks_mark_tested n c marks md :
  apply_marks marks (mark_tested n c md)
  = mark_tested n c (apply_marks marks md).
Proof.
  revert md. induction marks as [|[n' c'] marks IH]; intros md; simpl; [done|].
  by rewrite <- IH, mark_tested_comm.
Qed.

Lemma apply_marks_idemp marks md :
  apply_marks marks (apply_marks marks md) = apply_marks marks md.
Proof.
  revert md. induction marks as [|[n c] marks IH]; intros md; simpl; [done|].
  by rewrite (apply_marks_mark_tested n c marks md), mark_tested_idemp,
    <- apply_marks_mark_tested, IH.
Qed.

Lemma apply_marks_marked n c marks md d :
  (n, c) ∈ marks →
  md !! n = Some d →
  is_Some (ModelDetail.columns_test d !! c) →
  ∃ d', apply_marks marks md !! n = Some d'
        ∧ ModelDetail.columns_test d' !! c = Some true.
Proof.
  intros Hin Hd Hc.
  apply list_elem_of_split in Hin as (l1 & l2 & ->).
  unfold apply_marks. rewrite foldl_app. simpl.
  fold (apply_marks l1 md).
  pose proof (apply_marks_marks_only l1 md n) as H1. rewrite Hd in H1.
  inversion H1 as [? d1 (E1 & D1 & M1) Hq1 Hq2|]; subst.
  symmetry in Hq2.
  set (md1 := mark_tested n c (apply_marks l1 md)).
  assert (∃ d2, md1 !! n = Some d2
                ∧ ModelDetail.columns_test d2 !! c = Some true)
    as (d2 & Hd2 & Hc2).
  { exists (mark_column c d1). subst md1.
    rewrite mark_tested_alter, lookup_alter_eq, Hq2. split; [done|].
    apply mark_column_marks. apply elem_of_dom. rewrite D1.
    by apply elem_of_dom. }
  fold (apply_marks l2 md1).
  pose proof (apply_marks_marks_only l2 md1 n) as H2. rewrite Hd2 in H2.
  inversion H2 as [? d3 (E3 & D3 & M3) Hq3 Hq4|]; subst.
  exists d3. split; [done | by apply M3].
Qed.

(** *** The second pass is a sequence of marks *)

Lemma analyze_dependency_marks manifest test_node md model_id :
  analyze_dependency manifest test_node md model_id
  = apply_marks
      match get model_id (Manifest.nodes manifest),
            column_signal test_node with
      | Some model_node, Some col => [(Node.name model_node, col)]
      | _, _ => []
      end md.
Proof.
  unfold analyze_dependency, column_signal.
  destruct (get model_id (Manifest.nodes manifest)) as [model_node|]; [|done].
  assert (∀ col, md !! Node.name model_node = None →
                 md = mark_tested (Node.name model_node) col md) as Habsent.
  { intros col Hnone. unfold mark_tested. by rewrite Hnone. }
  destruct (bool_decide (is_Some (md !! Node.name model_node))) eqn:Hkey.
  - destruct (truthy_str (Node.column_name test_node)) eqn:Hcol.
    + destruct (Node.column_name test_node); [done | discriminate].
    + destruct (Node.test_metadata test_node) as [[tm|]|]; try done.
      by destruct (TestMetadata.kwargs tm !! "column").
  - apply bool_decide_eq_false_1 in Hkey.
    rewrite <- eq_None_not_Some in Hkey.
    destruct (truthy_str (Node.column_name test_node)) eqn:Hcol.
    + destruct (Node.column_name test_node); [by apply Habsent | discriminate].
    + destruct (Node.test_metadata test_node) as [[tm|]|]; try done.
      destruct (TestMetadata.kwargs tm !! "column"); [by apply Habsent | done].
Qed.

Lemma apply_marks_app l1 l2 md :
  apply_marks (l1 ++ l2) md = apply_marks l2 (apply_marks l1 md).
Proof. apply foldl_app. Qed.

Lemma _analyze_column_tests_marks manifest md :
  _analyze_column_tests manifest md = apply_marks (column_marks manifest) md.
Proof.
  unfold _analyze_column_tests, column_marks.
  generalize (values (Manifest.nodes manifest)) as tests. intros tests.
  revert md. induction tests as [|test_node tests IH]; intros md; [done|].
  simpl. rewrite IH, apply_marks_app. f_equal.
  destruct (bool_decide (Node.resource_type test_node = "test")); [|done].
  generalize (Node.depends_on_nodes test_node) as deps. intros deps.
  revert md. induction deps as [|model_id deps IHd]; intros md; [done|].
  simpl. rewrite IHd, apply_marks_app. f_equal.
  apply analyze_dependency_marks.
Qed.

(** ** The first pass *)

Section FirstPass.
Variable fnmatch : string → string → bool.
Variables (manifest : Manifest.t) (package_name : string).

Lemma analyze_node_lookup acc node name :
  (analyze_node manifest package_name acc node).2 !! name
  = if is_analyzed package_name node && bool_decide (Node.name node = name)
    then Some (model_detail manifest package_name node)
    else acc.2 !! name.
Proof.
  destruct acc as [[uts cs] md]. unfold analyze_node.
  destruct (is_analyzed package_name node); simpl; [|done].
  case_bool_decide as Hname.
  - subst. destruct (contract_enforced node); simpl; apply lookup_insert_eq.
  - destruct (contract_enforced node); simpl; by apply lookup_insert_ne.
Qed.

Lemma analyze_node_stats acc node :
  let analyzed := is_analyzed package_name node in
  let count (b : bool) := if analyzed && b then 1 else 0 in
  UnitTestStats.total_models (analyze_node manifest package_name acc node).1.1
    = UnitTestStats.total_models acc.1.1 + count true
  ∧ UnitTestStats.models_with_unit_tests (analyze_node manifest package_name acc node).1.1
    = UnitTestStats.models_with_unit_tests acc.1.1
      + count (truthy (unit_tests_of manifest package_name node))
  ∧ ContractStats.with_contracts (analyze_node manifest package_name acc node).1.2
    = ContractStats.with_contracts acc.1.2 + count (contract_enforced node)
  ∧ ContractStats.without_contracts (analyze_node manifest package_name acc node).1.2
    = ContractStats.without_contracts acc.1.2
      + count (negb (contract_enforced node))
  ∧ ContractStats.contract_issues (analyze_node manifest package_name acc node).1.2
    = ContractStats.contract_issues acc.1.2.
Proof.
  destruct acc as [[uts cs] md]. unfold analyze_node, contract_issues.
  destruct (is_analyzed package_name node); simpl; [|by rewrite !Nat.add_0_r].
  destruct (contract_enforced node) eqn:Henf; simpl;
    rewrite ?andb_false_r; simpl;
    destruct (truthy (unit_tests_of manifest package_name node)); simpl;
    rewrite ?Nat.add_0_r; done.
Qed.

Lemma analyze_nodes_snoc l node :
  analyze_nodes manifest package_name (l ++ [node])
  = analyze_node manifest package_name
      (analyze_nodes manifest package_name l) node.
Proof. unfold analyze_nodes. by rewrite foldl_app. Qed.

Lemma analyze_nodes_lookup_Some l name d :
  (analyze_nodes manifest package_name l).2 !! name = Some d →
  ∃ node, node ∈ l ∧ is_analyzed package_name node = true
          ∧ Node.name node = name
          ∧ d = model_detail manifest package_name node.
Proof.
  induction l as [|node l IH] using rev_ind; [done|].
  rewrite analyze_nodes_snoc, analyze_node_lookup.
  destruct (is_analyzed package_name node) eqn:Han; simpl.
  - case_bool_decide as Hname.
    + intros [= <-]. exists node. split_and!; try done.
      apply elem_of_app. right. by apply list_elem_of_singleton.
    + intros (node' & Hin & ?)%IH. exists node'. split; [|done].
      apply elem_of_app. by left.
  - intros (node' & Hin & ?)%IH. exists node'. split; [|done].
    apply elem_of_app. by left.
Qed.

Lemma analyze_nodes_lookup_is_Some l node :
  node ∈ l → is_analyzed package_name node = true →
  is_Some ((analyze_nodes manifest package_name l).2 !! Node.name node).
Proof.
  intros Hin Han. induction l as [|node' l IH] using rev_ind.
  - by apply elem_of_nil in Hin.
  - rewrite analyze_nodes_snoc, analyze_node_lookup.
    destruct (is_analyzed package_name node'
              && bool_decide (Node.name node' = Node.name node)) eqn:Hhit;
      [done|].
    apply elem_of_app in Hin as [Hin | ->%list_elem_of_singleton];
      [by apply IH|].
    by rewrite Han, bool_decide_eq_true_2 in Hhit.
Qed.

Lemma analyze_nodes_stats l :
  let acc := analyze_nodes manifest package_name l in
  let count (p : Node.t → bool) :=
    length (filter (λ node, is_analyzed package_name node && p node) l) in
  UnitTestStats.total_models acc.1.1 = count (λ _, true)
  ∧ UnitTestStats.models_with_unit_tests acc.1.1
    = count (λ node, truthy (unit_tests_of manifest package_name node))
  ∧ ContractStats.with_contracts acc.1.2 = count contract_enforced
  ∧ ContractStats.without_contracts acc.1.2
    = count (λ node, negb (contract_enforced node))
  ∧ ContractStats.contract_issues acc.1.2 = [].
Proof.
  induction l as [|node l IH] using rev_ind; [done|]. simpl in *.
  rewrite analyze_nodes_snoc.
  destruct (analyze_node_stats (analyze_nodes manifest package_name l) node)
    as (-> & -> & -> & -> & ->).
  destruct IH as (-> & -> & -> & -> & ->).
  rewrite !filter_app, !length_app.
  rewrite !filter_cons, !filter_nil.
  destruct (is_analyzed package_name node); simpl;
    [|by rewrite !Nat.add_0_r].
  destruct (contract_enforced node),
    (truthy (unit_tests_of manifest package_name node)); simpl; done.
Qed.

End FirstPass.

(** ** The last step *)

Lemma count_tested_size (columns_test : gmap string bool) :
  count_tested columns_test
  = size (filter (λ entry : string * bool, entry.2 = true) columns_test).
Proof.
  unfold count_tested. rewrite sum_list_fmap_const, Nat.mul_1_r.
  rewrite map_filter_alt, map_size_list_to_map.
  - generalize (map_to_list columns_test). intros l.
    induction l as [|[k b] l IH]; [done|].
    rewrite fmap_cons. destruct b; simpl; by rewrite ?IH.
  - apply (sublist_NoDup _ _ (NoDup_fst_map_to_list columns_test)).
    apply fmap_sublist, sublist_filter.
Qed.

(** ** The whole run *)

Section Run.
Variable fnmatch : string → string → bool.
Variables (fs : FileSystem) (manifest_path package_name : string).
Variables (model_names model_paths has_tags : list string) (any_tag : bool).
Variables (exclude_tags : list string) (test_type : string).

Lemma analyze_returns manifest :
  fs manifest_path = ManifestFile manifest →
  let filtered_nodes :=
    filter_nodes fnmatch manifest model_names model_paths has_tags any_tag
                 exclude_tags test_type in
  let acc := analyze_nodes manifest package_name filtered_nodes in
  analyze_unit_tests_and_contracts fnmatch fs manifest_path package_name
    model_names model_paths has_tags any_tag exclude_tags test_type
  = inr (acc.1.1, acc.1.2,
         calculate_model <$> _analyze_column_tests manifest acc.2).
Proof.
  intros Hfile. unfold analyze_unit_tests_and_contracts, _load_manifest.
  rewrite Hfile. simpl.
  by destruct (analyze_nodes _ _ _) as [[uts cs] md].
Qed.

End Run.

(** ** The filters *)

Lemma tags_intersect (tags1 tags2 : list string) :
  list_to_set tags1 ∩ list_to_set tags2 ≠ (∅ : gset string)
  ↔ ∃ tag, tag ∈ tags1 ∧ tag ∈ tags2.
Proof.
  split.
  - intros (tag & Hin)%set_choose_L.
    apply elem_of_intersection in Hin as [H1 H2].
    exists tag. by rewrite <- !(elem_of_list_to_set (C := gset string)).
  - intros (tag & H1 & H2) Hempty.
    apply (not_elem_of_empty (C := gset string) tag). rewrite <- Hempty.
    apply elem_of_intersection. by rewrite !elem_of_list_to_set.
Qed.

Lemma tags_subset (tags1 tags2 : list string) :
  list_to_set tags1 ⊆ (list_to_set tags2 : gset string)
  ↔ ∀ tag, tag ∈ tags1 → tag ∈ tags2.
Proof.
  rewrite elem_of_subseteq.
  split; intros Hsub tag; specialize (Hsub tag);
    by rewrite !elem_of_list_to_set in *.
Qed.

Lemma truthy_true {A} (l : list A) : l ≠ [] → truthy l = true.
Proof. by destruct l. Qed.

Section Filters.
Variable fnmatch : string → string → bool.

Lemma passes_tag_inclusion node model_names model_paths has_tags any_tag
    exclude_tags test_type :
  has_tags ≠ [] →
  _passes_filters fnmatch node model_names model_paths has_tags any_tag
                  exclude_tags test_type = true
  ↔ _passes_filters fnmatch node model_names model_paths [] any_tag
                    exclude_tags test_type = true
    ∧ if any_tag
      then ∃ tag, tag ∈ has_tags ∧ tag ∈ Node.tags node
      else ∀ tag, tag ∈ has_tags → tag ∈ Node.tags node.
Proof.
  intros Hne. unfold _passes_filters. rewrite (truthy_true has_tags Hne).
  destruct (truthy model_names && _); [by split; [|intros []]|].
  destruct (truthy model_paths && _); [by split; [|intros []]|].
  simpl. destruct any_tag.
  - rewrite <- tags_intersect.
    case_bool_decide as Htags; simpl; split; try done; by intros [].
  - rewrite <- tags_subset.
    case_bool_decide as Htags; simpl; split; try done; by intros [].
Qed.

Lemma passes_tag_exclusion node model_names model_paths has_tags any_tag
    exclude_tags test_type :
  (∃ tag, tag ∈ exclude_tags ∧ tag ∈ Node.tags node) →
  _passes_filters fnmatch node model_names model_paths has_tags any_tag
                  exclude_tags test_type = false.
Proof.
  intros Hex. assert (exclude_tags ≠ []) as Hne.
  { destruct Hex as (tag & Hin & _). intros ->. by apply elem_of_nil in Hin. }
  apply tags_intersect in Hex.
  unfold _passes_filters. rewrite (truthy_true exclude_tags Hne).
  rewrite (bool_decide_eq_true_2 _ Hex). simpl.
  destruct (truthy model_names && _); [done|].
  destruct (truthy model_paths && _); [done|].
  by destruct (truthy has_tags && _).
Qed.

Lemma matches_some_pattern (text : string) (patterns : list string) :
  truthy patterns && negb (existsb (fnmatch text) patterns) = false
  ↔ patterns = []
    ∨ ∃ pattern, pattern ∈ patterns ∧ fnmatch text pattern = true.
Proof.
  destruct patterns as [|pattern patterns]; [by split; [left|]|].
  simpl truthy. rewrite andb_true_l, negb_false_iff, existsb_exists. split.
  - intros (p & Hin%list_elem_of_In & Hmatch). right. eauto.
  - intros [|(p & Hin%list_elem_of_In & Hmatch)]; [done | eauto].
Qed.

(** The rules that do not read [has_tags]. *)
Lemma passes_other_rules node model_names model_paths any_tag exclude_tags
    test_type :
  _passes_filters fnmatch node model_names model_paths [] any_tag
                  exclude_tags test_type = true
  ↔ (model_names = []
     ∨ ∃ pattern, pattern ∈ model_names
                  ∧ fnmatch (Node.name node) pattern = true)
    ∧ (model_paths = []
       ∨ ∃ pattern, pattern ∈ model_paths
                    ∧ fnmatch (Node.original_file_path node) pattern = true)
    ∧ ¬ (∃ tag, tag ∈ exclude_tags ∧ tag ∈ Node.tags node)
    ∧ (Node.resource_type node = "test" →
       (test_type = "singular" → Node.test_metadata node = None)
       ∧ (test_type = "generic" → is_Some (Node.test_metadata node))).
Proof.
  unfold _passes_filters.
  rewrite <- !matches_some_pattern.
  destruct (truthy model_names && _); [by split; [|intros []]|].
  destruct (truthy model_paths && _); [by split; [|intros (_ & ? & _)]|].
  assert (truthy exclude_tags
          && bool_decide
               (list_to_set exclude_tags
                ∩ (list_to_set (Node.tags node) : gset string) ≠ ∅)
          = false
          ↔ ¬ (∃ tag, tag ∈ exclude_tags ∧ tag ∈ Node.tags node)) as Hexcl.
  { destruct exclude_tags as [|tag exclude_tags].
    - split; [|done]. intros _ (tag & Hin & _). by apply elem_of_nil in Hin.
    - simpl truthy.
      by rewrite andb_true_l, bool_decide_eq_false, tags_intersect. }
  simpl. rewrite <- Hexcl.
  destruct (truthy exclude_tags && _);
    [by split; [|intros (_ & _ & ? & _)]|].
  destruct (Node.test_metadata node) as [metadata|]; simpl;
    repeat case_bool_decide; simpl; subst; split; try done;
    try (intros _; split_and!; try done; intros; split; intros; by eauto);
    try (intros (_ & _ & _ & Htype); destruct Htype as [Hs Hg]; try done;
         by (try (specialize (Hs eq_refl)); try (destruct (Hg eq_refl)))).
Qed.

End Filters.

(** ** Counting the analyzed nodes *)

Lemma length_filter_split {A} (a p : A → bool) (l : list A) :
  length (filter (λ x, a x && p x) l)
  + length (filter (λ x, a x && negb (p x)) l)
  = length (filter (λ x, a x && true) l).
Proof.
  induction l as [|x l IH]; [done|]. rewrite !filter_cons.
  destruct (a x), (p x); simpl; lia.
Qed.

Lemma length_filter_part {A} (a p : A → bool) (l : list A) :
  (length (filter (λ x, a x && p x) l)
   ≤ length (filter (λ x, a x && true) l))%nat.
Proof.
  induction l as [|x l IH]; [done|]. rewrite !filter_cons.
  destruct (a x), (p x); simpl; lia.
Qed.

Lemma is_analyzed_spec package_name node :
  is_analyzed package_name node = true
  ↔ Node.resource_type node = "model"
    ∧ Node.package_name node = package_name
    ∧ Node.config node !! "materialized" ≠ Some "ephemeral".
Proof.
  unfold is_analyzed.
  rewrite !andb_true_iff, !bool_decide_eq_true. tauto.
Qed.

Lemma second_pass_keys manifest (md : gmap string ModelDetail.t) name :
  is_Some (_analyze_column_tests manifest md !! name) ↔ is_Some (md !! name).
Proof.
  rewrite _analyze_column_tests_marks.
  pose proof (apply_marks_marks_only (column_marks manifest) md name) as Hext.
  inversion Hext; split; intros [? Hsome]; eauto; congruence.
Qed.

(** ** What the first pass stores *)

Lemma initial_columns_test_lookup (columns : list string)
    (columns_test : gmap string bool) col :
  foldl (λ columns_test col, <[col := false]> columns_test) columns_test
        columns !! col
  = if decide (col ∈ columns) then Some false else columns_test !! col.
Proof.
  revert columns_test.
  induction columns as [|c columns IH]; intros columns_test.
  - destruct (decide (col ∈ [])) as [Hin|]; [|done].
    by apply elem_of_nil in Hin.
  - change (foldl (λ columns_test col, <[col := false]> columns_test)
              (<[c := false]> columns_test) columns !! col
            = if decide (col ∈ c :: columns) then Some false
              else columns_test !! col).
    rewrite IH.
    destruct (decide (col ∈ columns)) as [Hin|Hnotin],
      (decide (col ∈ c :: columns)) as [Hin'|Hnotin']; try done.
    + exfalso. apply Hnotin'. by right.
    + apply elem_of_cons in Hin' as [->|]; [|done]. apply lookup_insert_eq.
    + apply lookup_insert_ne. intros ->. apply Hnotin'. by left.
Qed.

Lemma model_detail_columns_test manifest package_name node col :
  ModelDetail.columns_test (model_detail manifest package_name node) !! col
  = if decide (col ∈ Node.columns node) then Some false else None.
Proof. apply initial_columns_test_lookup. Qed.

Lemma analyze_nodes_last manifest package_name before node after :
  is_analyzed package_name node = true →
  (∀ later, later ∈ after → is_analyzed package_name later = true →
            Node.name later ≠ Node.name node) →
  (analyze_nodes manifest package_name (before ++ node :: after)).2
    !! Node.name node
  = Some (model_detail manifest package_name node).
Proof.
  intros Han. induction after as [|later after IH] using rev_ind;
    intros Hlater.
  - rewrite analyze_nodes_snoc, analyze_node_lookup, Han.
    by rewrite bool_decide_eq_true_2.
  - replace (before ++ node :: after ++ [later])%list
      with ((before ++ node :: after) ++ [later])%list
      by (by rewrite <- app_assoc).
    rewrite analyze_nodes_snoc, analyze_node_lookup.
    destruct (is_analyzed package_name later) eqn:Hlater_an; simpl.
    + rewrite bool_decide_eq_false_2.
      * apply IH. intros l Hin. apply Hlater. apply elem_of_app. by left.
      * apply Hlater; [|done]. apply elem_of_app. right. by left.
    + apply IH. intros l Hin. apply Hlater. apply elem_of_app. by left.
Qed.

(** ** The analysis entry point *)

Section Analysis.
Variable fnmatch : string → string → bool.
Variables (fs : FileSystem) (manifest_path package_name : string).
Variables (model_names model_paths has_tags : list string) (any_tag : bool).
Variables (exclude_tags : list string) (test_type : string).

(** What a returned detail is made of: the detail built for an analyzed node
    that passes the filters, with marks from the second pass and the counts
    of the last step. *)
Lemma returned_detail manifest unit_test_stats contract_stats model_details
    name detail :
  fs manifest_path = ManifestFile manifest →
  analyze_unit_tests_and_contracts fnmatch fs manifest_path package_name
    model_names model_paths has_tags any_tag exclude_tags test_type
  = inr (unit_test_stats, contract_stats, model_details) →
  model_details !! name = Some detail →
  ∃ node marked,
    node ∈ values (Manifest.nodes manifest)
    ∧ _passes_filters fnmatch node model_names model_paths has_tags any_tag
                      exclude_tags test_type = true
    ∧ is_analyzed package_name node = true
    ∧ Node.name node = name
    ∧ extends (model_detail manifest package_name node) marked
    ∧ detail = calculate_model marked.
Proof.
  intros Hfile Hrun Hdetail.
  rewrite (analyze_returns _ _ _ _ _ _ _ _ _ _ _ Hfile) in Hrun.
  simpl in Hrun. injection Hrun as <- <- <-.
  rewrite lookup_fmap in Hdetail.
  destruct (_analyze_column_tests _ _ !! name) as [marked|] eqn:Hmarked;
    [|done].
  injection Hdetail as <-.
  rewrite _analyze_column_tests_marks in Hmarked.
  match type of Hmarked with
  | apply_marks ?marks ?md !! _ = _ =>
      pose proof (apply_marks_marks_only marks md name) as Hext
  end.
  rewrite Hmarked in Hext.
  inversion Hext as [built ? Hbuilt Hfirst|]; subst. symmetry in Hfirst.
  apply analyze_nodes_lookup_Some in Hfirst
    as (node & Hin & Han & Hname & ->).
  apply list_elem_of_filter in Hin as [Hpass Hin].
  exists node, marked. split_and!; try done. by apply Is_true_true.
Qed.

(** The run returns exactly when the manifest loads. *)
Lemma analyze_returns_some manifest :
  fs manifest_path = ManifestFile manifest →
  ∃ unit_test_stats contract_stats model_details,
    analyze_unit_tests_and_contracts fnmatch fs manifest_path package_name
      model_names model_paths has_tags any_tag exclude_tags test_type
    = inr (unit_test_stats, contract_stats, model_details).
Proof.
  intros Hfile. do 3 eexists.
  by apply analyze_returns.
Qed.

(** Property X17. The run raises [ManifestNotFoundError] exactly when nothing
    is at the manifest path, and [InvalidManifestError] exactly when
    [json.load] raises [JSONDecodeError] or [Manifest.from_dict] raises
    [DbtRuntimeError]; an exception of any other class raised while loading
    reaches the caller as it is; and the run returns its three structures
    exactly when the manifest loads, so that a failed run returns nothing. *)
Theorem load_outcomes :
  let run :=
    analyze_unit_tests_and_contracts fnmatch fs manifest_path package_name
      model_names model_paths has_tags any_tag exclude_tags test_type in
  ((∃ msg, run = inl (ManifestNotFoundError msg)) ↔ fs manifest_path = NoFile)
  ∧ (∀ msg,
       run = inl (InvalidManifestError msg)
       ↔ ∃ err,
           (fs manifest_path = NotJSON err
            ∧ msg = "Invalid JSON in manifest: " +:+ err)
           ∨ (fs manifest_path = NotManifest err
              ∧ msg = "Failed to parse manifest: " +:+ err))
  ∧ (∀ class_name err,
       run = inl (OtherException class_name err)
       ↔ fs manifest_path = RaisesOther class_name err)
  ∧ ((∃ returned, run = inr returned)
     ↔ ∃ manifest, fs manifest_path = ManifestFile manifest).
Proof.
  simpl.
  destruct (fs manifest_path) as [|err|err|class_name err|manifest] eqn:Hfile.
  - assert (analyze_unit_tests_and_contracts fnmatch fs manifest_path
              package_name model_names model_paths has_tags any_tag
              exclude_tags test_type
            = inl (ManifestNotFoundError
                     ("Manifest not found: " +:+ manifest_path))) as ->.
    { unfold analyze_unit_tests_and_contracts, _load_manifest.
      by rewrite Hfile. }
    split_and!.
    + by split; [|eexists].
    + intros msg. split; [done|]. by intros (e & [[? _]|[? _]]).
    + done.
    + split; [by intros [] | by intros []].
  - assert (analyze_unit_tests_and_contracts fnmatch fs manifest_path
              package_name model_names model_paths has_tags any_tag
              exclude_tags test_type
            = inl (InvalidManifestError
                     ("Invalid JSON in manifest: " +:+ err))) as ->.
    { unfold analyze_unit_tests_and_contracts, _load_manifest.
      by rewrite Hfile. }
    split_and!.
    + by split; [intros []|].
    + intros msg. split.
      * intros [= <-]. exists err. by left.
      * by intros (e & [[[= <-] ->]|[? _]]).
    + done.
    + split; [by intros [] | by intros []].
  - assert (analyze_unit_tests_and_contracts fnmatch fs manifest_path
              package_name model_names model_paths has_tags any_tag
              exclude_tags test_type
            = inl (InvalidManifestError
                     ("Failed to parse manifest: " +:+ err))) as ->.
    { unfold analyze_unit_tests_and_contracts, _load_manifest.
      by rewrite Hfile. }
    split_and!.
    + by split; [intros []|].
    + intros msg. split.
      * intros [= <-]. exists err. by right.
      * by intros (e & [[? _]|[[= <-] ->]]).
    + done.
    + split; [by intros [] | by intros []].
  - assert (analyze_unit_tests_and_contracts fnmatch fs manifest_path
              package_name model_names model_paths has_tags any_tag
              exclude_tags test_type
            = inl (OtherException class_name err)) as ->.
    { unfold analyze_unit_tests_and_contracts, _load_manifest.
      by rewrite Hfile. }
    split_and!.
    + by split; [intros []|].
    + intros msg. split; [done|]. by intros (e & [[? _]|[? _]]).
    + intros c e. split; [by intros [= <- <-] | by intros [= <- <-]].
    + split; [by intros [] | by intros []].
  - destruct (analyze_returns_some manifest Hfile) as (uts & cs & md & ->).
    split_and!.
    + by split; [intros []|].
    + intros msg. split; [done|]. by intros (e & [[? _]|[? _]]).
    + done.
    + split; eauto.
Qed.

(** Claim C4. A name is a key of the returned [model_details] exactly when
    some node of the manifest with that name is a model of the target
    package, is not materialized as [ephemeral], and passes the filters; the
    totals of both statistics count these nodes only, so an ephemeral model
    appears in none of the three structures. *)
Theorem model_details_keys manifest :
  fs manifest_path = ManifestFile manifest →
  let analyzed :=
    filter (λ node,
              Node.resource_type node = "model"
              ∧ Node.package_name node = package_name
              ∧ Node.config node !! "materialized" ≠ Some "ephemeral"
              ∧ _passes_filters fnmatch node model_names model_paths has_tags
                                any_tag exclude_tags test_type = true)
           (values (Manifest.nodes manifest)) in
  ∃ unit_test_stats contract_stats model_details,
    analyze_unit_tests_and_contracts fnmatch fs manifest_path package_name
      model_names model_paths has_tags any_tag exclude_tags test_type
    = inr (unit_test_stats, contract_stats, model_details)
    ∧ (∀ name,
         is_Some (model_details !! name)
         ↔ ∃ node,
             node ∈ values (Manifest.nodes manifest)
             ∧ Node.name node = name
             ∧ Node.resource_type node = "model"
             ∧ Node.package_name node = package_name
             ∧ Node.config node !! "materialized" ≠ Some "ephemeral"
             ∧ _passes_filters fnmatch node model_names model_paths has_tags
                               any_tag exclude_tags test_type = true)
    ∧ UnitTestStats.total_models unit_test_stats = length analyzed
    ∧ (UnitTestStats.models_with_unit_tests unit_test_stats
       ≤ length analyzed)%nat
    ∧ ContractStats.with_contracts contract_stats
      + ContractStats.without_contracts contract_stats = length analyzed.
Proof.
  intros Hfile analyzed.
  set (filtered := filter_nodes fnmatch manifest model_names model_paths
                     has_tags any_tag exclude_tags test_type).
  assert (filter (λ node, is_analyzed package_name node && true) filtered
          = analyzed) as Hanalyzed.
  { unfold filtered, filter_nodes, analyzed. rewrite list_filter_filter.
    apply list_filter_iff. intros node.
    rewrite andb_true_r, !Is_true_true, is_analyzed_spec. tauto. }
  pose proof (analyze_nodes_stats manifest package_name filtered)
    as (Htotal & Hunit & Hwith & Hwithout & _). simpl in *.
  do 3 eexists. split; [by apply analyze_returns|]. simpl.
  fold filtered. split_and!.
  - intros name. rewrite lookup_fmap, fmap_is_Some, second_pass_keys. split.
    + intros [built Hbuilt].
      apply analyze_nodes_lookup_Some in Hbuilt
        as (node & Hin & Han & Hname & _).
      apply list_elem_of_filter in Hin as [Hpass Hin].
      apply Is_true_true in Hpass. apply is_analyzed_spec in Han.
      exists node. tauto.
    + intros (node & Hin & <- & Hmodel & Hpackage & Hmat & Hpass).
      apply analyze_nodes_lookup_is_Some.
      * apply list_elem_of_filter. split; [by apply Is_true_true | done].
      * by apply is_analyzed_spec.
  - by rewrite Htotal, Hanalyzed.
  - rewrite Hunit, <- Hanalyzed. apply length_filter_part.
  - by rewrite Hwith, Hwithout, length_filter_split, Hanalyzed.
Qed.

(** Claim C5. In every returned detail, [tested_columns] is the number of
    entries of [columns_test] that are true, [coverage_pct] is
    [tested_columns / total_columns * 100] when [total_columns] is positive,
    and [0.0] when it is zero. *)
Theorem coverage_of_returned_models manifest :
  fs manifest_path = ManifestFile manifest →
  ∃ unit_test_stats contract_stats model_details,
    analyze_unit_tests_and_contracts fnmatch fs manifest_path package_name
      model_names model_paths has_tags any_tag exclude_tags test_type
    = inr (unit_test_stats, contract_stats, model_details)
    ∧ ∀ name detail,
        model_details !! name = Some detail →
        ModelDetail.tested_columns detail
        = size (filter (λ entry : string * bool, entry.2 = true)
                       (ModelDetail.columns_test detail))
        ∧ (0 < ModelDetail.total_columns detail →
           ModelDetail.coverage_pct detail
           = (float_of_nat (ModelDetail.tested_columns detail)
              / float_of_nat (ModelDetail.total_columns detail) * 100)%float)
        ∧ (ModelDetail.total_columns detail = 0 →
           ModelDetail.coverage_pct detail = 0%float).
Proof.
  intros Hfile.
  destruct (analyze_returns_some manifest Hfile) as (uts & cs & md & Hrun).
  exists uts, cs, md. split; [done|]. intros name detail Hdetail.
  destruct (returned_detail _ _ _ _ _ _ Hfile Hrun Hdetail)
    as (node & marked & _ & _ & _ & _ & _ & ->).
  unfold calculate_model. simpl. split_and!.
  - apply count_tested_size.
  - intros Hpos. by rewrite bool_decide_eq_true_2.
  - intros Hzero. rewrite bool_decide_eq_false_2; [done | lia].
Qed.

(** Claim C10. In every returned detail [has_contract] equals
    [contract_enforced]: a model whose contract is not enforced reports
    [has_contract = false] like a model without a contract, and the detail
    built for the one differs from the detail built for the other in
    [contract_issues] only. *)
Theorem has_contract_is_contract_enforced manifest :
  fs manifest_path = ManifestFile manifest →
  (∃ unit_test_stats contract_stats model_details,
     analyze_unit_tests_and_contracts fnmatch fs manifest_path package_name
       model_names model_paths has_tags any_tag exclude_tags test_type
     = inr (unit_test_stats, contract_stats, model_details)
     ∧ ∀ name detail,
         model_details !! name = Some detail →
         ModelDetail.has_contract detail
         = ModelDetail.contract_enforced detail
         ∧ ∃ node,
             node ∈ values (Manifest.nodes manifest)
             ∧ Node.name node = name
             ∧ match Node.contract node with
               | Some contract =>
                   if Contract.enforced contract
                   then ModelDetail.has_contract detail = true
                        ∧ ModelDetail.contract_issues detail = []
                   else ModelDetail.has_contract detail = false
                        ∧ ModelDetail.contract_issues detail
                          = ["Contract not enforced"]
               | None =>
                   ModelDetail.has_contract detail = false
                   ∧ ModelDetail.contract_issues detail = []
               end)
  ∧ ∀ node contract,
      Contract.enforced contract = false →
      model_detail manifest package_name
        (Node.set_contract (Some contract) node)
      = ModelDetail.set_contract_issues ["Contract not enforced"]
          (model_detail manifest package_name
             (Node.set_contract None node)).
Proof.
  intros Hfile. split.
  - destruct (analyze_returns_some manifest Hfile) as (uts & cs & md & Hrun).
    exists uts, cs, md. split; [done|]. intros name detail Hdetail.
    destruct (returned_detail _ _ _ _ _ _ Hfile Hrun Hdetail)
      as (node & marked & Hin & _ & _ & Hname & (Hmarked & _) & ->).
    rewrite Hmarked. simpl. split; [done|].
    exists node. split_and!; try done.
    unfold contract_issues, contract_enforced, has_contract.
    by destruct (Node.contract node) as [[[]]|].
  - intros node [enforced] Henforced. simpl in Henforced. subst enforced.
    by destruct node.
Qed.

(** Claim C6. Column coverage uses every test node of the manifest, whether
    or not it passes the filters: when a test node points at a column and
    one of its dependencies resolves to a node that bears the name of an
    analyzed model, the run returns a detail under that name in which the
    column is marked tested, provided the model has that column. The model
    is the last node of that name that the second loop analyzes. *)
Theorem column_tests_ignore_filters manifest test_node model_id model_node
    col before node after :
  fs manifest_path = ManifestFile manifest →
  test_node ∈ values (Manifest.nodes manifest) →
  Node.resource_type test_node = "test" →
  model_id ∈ Node.depends_on_nodes test_node →
  get model_id (Manifest.nodes manifest) = Some model_node →
  column_signal test_node = Some col →
  values (Manifest.nodes manifest) = (before ++ node :: after)%list →
  Node.name node = Node.name model_node →
  Node.resource_type node = "model" →
  Node.package_name node = package_name →
  Node.config node !! "materialized" ≠ Some "ephemeral" →
  _passes_filters fnmatch node model_names model_paths has_tags any_tag
                  exclude_tags test_type = true →
  (∀ later,
     later ∈ after →
     Node.resource_type later = "model" →
     Node.package_name later = package_name →
     Node.config later !! "materialized" ≠ Some "ephemeral" →
     _passes_filters fnmatch later model_names model_paths has_tags any_tag
                     exclude_tags test_type = true →
     Node.name later ≠ Node.name node) →
  col ∈ Node.columns node →
  ∃ unit_test_stats contract_stats model_details detail,
    analyze_unit_tests_and_contracts fnmatch fs manifest_path package_name
      model_names model_paths has_tags any_tag exclude_tags test_type
    = inr (unit_test_stats, contract_stats, model_details)
    ∧ model_details !! Node.name model_node = Some detail
    ∧ ModelDetail.columns_test detail !! col = Some true.
Proof.
  intros Hfile Htest Htype Hdep Hget Hsignal Hsplit Hname Hmodel Hpackage
    Hmat Hpass Hlater Hcol.
  assert ((Node.name model_node, col) ∈ column_marks manifest) as Hmark.
  { unfold column_marks. apply list_elem_of_bind. exists test_node.
    split; [|done]. rewrite bool_decide_eq_true_2 by done.
    apply list_elem_of_bind. exists model_id. split; [|done].
    rewrite Hget, Hsignal. by apply list_elem_of_singleton. }
  assert (is_analyzed package_name node = true) as Han
    by (by apply is_analyzed_spec).
  assert ((analyze_nodes manifest package_name
             (filter_nodes fnmatch manifest model_names model_paths has_tags
                           any_tag exclude_tags test_type)).2
            !! Node.name model_node
          = Some (model_detail manifest package_name node)) as Hbuilt.
  { rewrite <- Hname. unfold filter_nodes. rewrite Hsplit, filter_app.
    rewrite filter_cons_True by (by apply Is_true_true).
    apply analyze_nodes_last; [done|].
    intros later [Hlater_pass Hin]%list_elem_of_filter Hlater_an.
    apply is_analyzed_spec in Hlater_an as (? & ? & ?).
    apply Hlater; try done. by apply Is_true_true. }
  destruct (apply_marks_marked _ _ _ _ _ Hmark Hbuilt)
    as (marked & Hmarked & Htrue).
  { rewrite model_detail_columns_test. by rewrite decide_True. }
  do 3 eexists. exists (calculate_model marked).
  split; [by apply analyze_returns|]. simpl.
  by rewrite lookup_fmap, _analyze_column_tests_marks, Hmarked.
Qed.

End Analysis.

(** ** The column-test cross-referencer *)

(** Claim C7. The second pass is idempotent and monotone: running it twice
    gives what running it once gives, and a column that was marked stays
    marked. *)
Theorem cross_reference_idempotent_monotone manifest
    (model_details : gmap string ModelDetail.t) :
  _analyze_column_tests manifest (_analyze_column_tests manifest model_details)
  = _analyze_column_tests manifest model_details
  ∧ ∀ name detail col,
      model_details !! name = Some detail →
      ModelDetail.columns_test detail !! col = Some true →
      ∃ detail',
        _analyze_column_tests manifest model_details !! name = Some detail'
        ∧ ModelDetail.columns_test detail' !! col = Some true.
Proof.
  rewrite !_analyze_column_tests_marks. split.
  - apply apply_marks_idemp.
  - intros name detail col Hdetail Htrue.
    pose proof (apply_marks_marks_only (column_marks manifest) model_details
                  name) as Hext.
    rewrite Hdetail in Hext.
    inversion Hext as [? detail' (_ & _ & Hkeep) Hold Hdetail'|]; subst.
    exists detail'. split; [done | by apply Hkeep].
Qed.

(** Claim C8. The second pass only flips entries of [columns_test] that
    exist: the keys of [model_details] and of every [columns_test] are
    unchanged, a name that was no key is no key afterwards, and every other
    field of every detail is unchanged. *)
Theorem cross_reference_frame manifest
    (model_details : gmap string ModelDetail.t) :
  let model_details' := _analyze_column_tests manifest model_details in
  dom model_details' = dom model_details
  ∧ (∀ name, model_details !! name = None → model_details' !! name = None)
  ∧ ∀ name detail,
      model_details !! name = Some detail →
      ∃ detail',
        model_details' !! name = Some detail'
        ∧ dom (ModelDetail.columns_test detail')
          = dom (ModelDetail.columns_test detail)
        ∧ ModelDetail.path detail' = ModelDetail.path detail
        ∧ ModelDetail.unit_tests detail' = ModelDetail.unit_tests detail
        ∧ ModelDetail.has_contract detail' = ModelDetail.has_contract detail
        ∧ ModelDetail.contract_enforced detail'
          = ModelDetail.contract_enforced detail
        ∧ ModelDetail.contract_issues detail'
          = ModelDetail.contract_issues detail
        ∧ ModelDetail.columns detail' = ModelDetail.columns detail
        ∧ ModelDetail.total_columns detail'
          = ModelDetail.total_columns detail
        ∧ ModelDetail.tested_columns detail'
          = ModelDetail.tested_columns detail
        ∧ ModelDetail.coverage_pct detail' = ModelDetail.coverage_pct detail
        ∧ ModelDetail.unit_test_pct detail'
          = ModelDetail.unit_test_pct detail.
Proof.
  simpl. split_and!.
  - apply set_eq. intros name. rewrite !elem_of_dom. apply second_pass_keys.
  - intros name Hnone. apply eq_None_not_Some.
    rewrite second_pass_keys, Hnone. by intros [].
  - intros name detail Hdetail.
    rewrite _analyze_column_tests_marks.
    pose proof (apply_marks_marks_only (column_marks manifest) model_details
                  name) as Hext.
    rewrite Hdetail in Hext.
    inversion Hext as [? detail' (Hsame & Hdom & _) Hold Hdetail'|]; subst.
    exists detail'. split; [done|]. split; [done|].
    rewrite Hsame. by destruct detail.
Qed.

(** ** The filter evaluator *)

Section FilterEvaluator.
Variable fnmatch : string → string → bool.

(** Claim C2. With [has_tags] non-empty, a node passes the filters exactly
    when the tag inclusion rule holds, it has no tag of [exclude_tags], and
    the rules on its name, its path and its test type hold, where the tag
    inclusion rule is: if [any_tag] is set, the node shares a tag with
    [has_tags] (ANY), otherwise it has every tag of [has_tags] (ALL). So a
    node that meets the other rules is accepted exactly when it meets the
    tag inclusion rule, and a node that has a tag of [exclude_tags] is
    rejected whatever the other filters are. *)
Theorem tag_rules node model_names model_paths has_tags any_tag exclude_tags
    test_type :
  (has_tags ≠ [] →
   (_passes_filters fnmatch node model_names model_paths has_tags any_tag
                    exclude_tags test_type = true
    ↔ (if any_tag
       then ∃ tag, tag ∈ has_tags ∧ tag ∈ Node.tags node
       else ∀ tag, tag ∈ has_tags → tag ∈ Node.tags node)
      ∧ ¬ (∃ tag, tag ∈ exclude_tags ∧ tag ∈ Node.tags node)
      ∧ (model_names = []
         ∨ ∃ pattern, pattern ∈ model_names
                      ∧ fnmatch (Node.name node) pattern = true)
      ∧ (model_paths = []
         ∨ ∃ pattern, pattern ∈ model_paths
                      ∧ fnmatch (Node.original_file_path node) pattern = true)
      ∧ (Node.resource_type node = "test" →
         (test_type = "singular" → Node.test_metadata node = None)
         ∧ (test_type = "generic" → is_Some (Node.test_metadata node)))))
  ∧ ((∃ tag, tag ∈ exclude_tags ∧ tag ∈ Node.tags node) →
     _passes_filters fnmatch node model_names model_paths has_tags any_tag
                     exclude_tags test_type = false).
Proof.
  split.
  - intros Hne.
    rewrite passes_tag_inclusion, passes_other_rules by done. tauto.
  - apply passes_tag_exclusion.
Qed.

(** Claim C3, as amended. The sense of [any_tag] is the one its help text
    gives: with only the tag filter active, a set flag accepts a node
    exactly when it shares a tag with [has_tags] (ANY), and an unset flag
    exactly when it has every tag of [has_tags] (ALL). *)
Theorem any_tag_as_documented node has_tags :
  has_tags ≠ [] →
  (_passes_filters fnmatch node [] [] has_tags true [] "all" = true
   ↔ ∃ tag, tag ∈ has_tags ∧ tag ∈ Node.tags node)
  ∧ (_passes_filters fnmatch node [] [] has_tags false [] "all" = true
     ↔ ∀ tag, tag ∈ has_tags → tag ∈ Node.tags node).
Proof.
  intros Hne.
  assert (∀ any_tag, _passes_filters fnmatch node [] [] [] any_tag [] "all"
                     = true) as Hrest.
  { intros any_tag. unfold _passes_filters. simpl.
    rewrite andb_false_r. by destruct any_tag. }
  split.
  - rewrite (passes_tag_inclusion fnmatch node [] [] has_tags true [] "all")
      by done.
    rewrite Hrest. tauto.
  - rewrite (passes_tag_inclusion fnmatch node [] [] has_tags false [] "all")
      by done.
    rewrite Hrest. tauto.
Qed.

End FilterEvaluator.

(** ** The analyser on the concrete manifests *)

(** Claim C1, on the manifest with one model whose contract is not enforced:
    the model is counted under [without_contracts] and its detail carries
    the issue, but no record reaches [contract_stats.contract_issues]. *)
Theorem unenforced_contract_issue_not_recorded :
  ∃ unit_test_stats contract_stats model_details,
    analyze_unit_tests_and_contracts fnmatch_wildcard
      (one_file target_manifest unenforced_manifest) target_manifest
      "jaffle_shop" [] [] [] false [] "all"
    = inr (unit_test_stats, contract_stats, model_details)
    ∧ ContractStats.with_contracts contract_stats = 0
    ∧ ContractStats.without_contracts contract_stats = 1
    ∧ ContractStats.contract_issues contract_stats = []
    ∧ ModelDetail.contract_issues <$> model_details !! "orders"
      = Some ["Contract not enforced"].
Proof.
  do 3 eexists. split; [by apply analyze_returns|].
  vm_compute. done.
Qed.

(** Claim C9, on a manifest file whose JSON does not have the shape of a
    manifest: [_load_manifest] does not catch the [InvalidFieldValue] that
    [Manifest.from_dict] raises, so the run raises that exception as it is
    and not [InvalidManifestError]; it returns nothing. *)
Theorem schema_invalid_manifest_not_translated err :
  let run :=
    analyze_unit_tests_and_contracts fnmatch_wildcard
      (schema_invalid_file target_manifest err) target_manifest
      "jaffle_shop" [] [] [] false [] "all" in
  run = inl (OtherException "InvalidFieldValue" err)
  ∧ (∀ msg, run ≠ inl (InvalidManifestError msg))
  ∧ (∀ returned, run ≠ inr returned).
Proof. by split_and!. Qed.

Lemma tag_rules_witness :
  ["a"; "b"] ≠ []
  ∧ (_passes_filters fnmatch_wildcard (tagged ["a"; "b"; "c"]) [] []
       ["a"; "b"] false ["d"] "all" = true
     ↔ (∀ tag, tag ∈ ["a"; "b"] → tag ∈ Node.tags (tagged ["a"; "b"; "c"]))
       ∧ ¬ (∃ tag, tag ∈ ["d"] ∧ tag ∈ Node.tags (tagged ["a"; "b"; "c"]))
       ∧ (([] : list string) = []
          ∨ ∃ pattern : string,
              pattern ∈ []
              ∧ fnmatch_wildcard (Node.name (tagged ["a"; "b"; "c"])) pattern
                = true)
       ∧ (([] : list string) = []
          ∨ ∃ pattern : string,
              pattern ∈ []
              ∧ fnmatch_wildcard
                  (Node.original_file_path (tagged ["a"; "b"; "c"])) pattern
                = true)
       ∧ (Node.resource_type (tagged ["a"; "b"; "c"]) = "test" →
          ("all" = "singular"
           → Node.test_metadata (tagged ["a"; "b"; "c"]) = None)
          ∧ ("all" = "generic"
             → is_Some (Node.test_metadata (tagged ["a"; "b"; "c"])))))
  ∧ ((∃ tag, tag ∈ ["d"] ∧ tag ∈ Node.tags (tagged ["a"; "b"; "c"])) →
     _passes_filters fnmatch_wildcard (tagged ["a"; "b"; "c"]) [] []
       ["a"; "b"] false ["d"] "all" = false)
  ∧ _passes_filters fnmatch_wildcard (tagged ["a"; "b"; "c"]) [] []
      ["a"; "b"] false ["d"] "all" = true.
Proof.
  assert (["a"; "b"] ≠ ([] : list string)) as Hne by done.
  pose proof (tag_rules fnmatch_wildcard (tagged ["a"; "b"; "c"]) [] []
                ["a"; "b"] false ["d"] "all") as [Hpasses Hexcluded].
  specialize (Hpasses Hne).
  split; [done|]. split; [done|]. split; [done|].
  apply Hpasses. simpl. split_and!.
  - intros tag. rewrite !elem_of_cons. tauto.
  - intros (tag & Hin & Htag). apply list_elem_of_singleton in Hin. subst tag.
    rewrite !elem_of_cons, elem_of_nil in Htag.
    by destruct Htag as [|[|[|]]].
  - by left.
  - by left.
  - done.
Defined.

(** The examples of the specification: a node tagged [a], [b] and [c] is
    accepted for [has_tags = [a; b]] without [any_tag] and for
    [has_tags = [x; a]] with [any_tag], rejected for [has_tags = [x; a]]
    without [any_tag], and rejected as soon as [exclude_tags] is [[c]]. *)
Example tagged_node_examples :
  _passes_filters fnmatch_wildcard (tagged ["a"; "b"; "c"]) [] []
    ["a"; "b"] false [] "all" = true
  ∧ _passes_filters fnmatch_wildcard (tagged ["a"; "b"; "c"]) [] []
      ["x"; "a"] true [] "all" = true
  ∧ _passes_filters fnmatch_wildcard (tagged ["a"; "b"; "c"]) [] []
      ["x"; "a"] false [] "all" = false
  ∧ _passes_filters fnmatch_wildcard (tagged ["a"; "b"; "c"]) [] []
      ["a"; "b"] false ["c"] "all" = false
  ∧ _passes_filters fnmatch_wildcard (tagged ["a"; "b"; "c"]) [] []
      ["x"; "a"] true ["c"] "all" = false.
Proof. by vm_compute. Qed.

Lemma any_tag_as_documented_witness :
  ["x"; "a"] ≠ []
  ∧ (_passes_filters fnmatch_wildcard (tagged ["a"; "b"; "c"]) [] []
       ["x"; "a"] true [] "all" = true
     ↔ ∃ tag, tag ∈ ["x"; "a"] ∧ tag ∈ Node.tags (tagged ["a"; "b"; "c"]))
  ∧ (_passes_filters fnmatch_wildcard (tagged ["a"; "b"; "c"]) [] []
       ["x"; "a"] false [] "all" = true
     ↔ ∀ tag, tag ∈ ["x"; "a"] → tag ∈ Node.tags (tagged ["a"; "b"; "c"])).
Proof.
  split; [done|].
  apply (any_tag_as_documented fnmatch_wildcard (tagged ["a"; "b"; "c"])
           ["x"; "a"]).
  done.
Defined.

(** Claim C3 as stated fails: a node tagged [a] passes [has_tags = [x; a]]
    with [any_tag] set, although it does not have the tag [x]. *)
Lemma any_tag_inverted_counterexample :
  ¬ (∀ node has_tags,
       has_tags ≠ [] →
       (_passes_filters fnmatch_wildcard node [] [] has_tags true [] "all"
        = true
        ↔ ∀ tag, tag ∈ has_tags → tag ∈ Node.tags node)
       ∧ (_passes_filters fnmatch_wildcard node [] [] has_tags false []
            "all" = true
          ↔ ∃ tag, tag ∈ has_tags ∧ tag ∈ Node.tags node)).
Proof.
  intros Hclaim.
  destruct (Hclaim (tagged ["a"]) ["x"; "a"]) as [[Hall _] _]; [done|].
  assert ("x" ∈ Node.tags (tagged ["a"])) as Hx.
  { apply Hall; [by vm_compute | by left]. }
  simpl in Hx. apply list_elem_of_singleton in Hx. discriminate.
Qed.

Lemma model_details_keys_witness :
  one_file target_manifest orders_manifest target_manifest
  = ManifestFile orders_manifest
  ∧ let analyzed :=
      filter (λ node,
                Node.resource_type node = "model"
                ∧ Node.package_name node = "jaffle_shop"
                ∧ Node.config node !! "materialized" ≠ Some "ephemeral"
                ∧ _passes_filters fnmatch_wildcard node ["ord*"] [] [] false
                    [] "all" = true)
             (values (Manifest.nodes orders_manifest)) in
    ∃ unit_test_stats contract_stats model_details,
      analyze_unit_tests_and_contracts fnmatch_wildcard
        (one_file target_manifest orders_manifest) target_manifest
        "jaffle_shop" ["ord*"] [] [] false [] "all"
      = inr (unit_test_stats, contract_stats, model_details)
      ∧ (∀ name,
           is_Some (model_details !! name)
           ↔ ∃ node,
               node ∈ values (Manifest.nodes orders_manifest)
               ∧ Node.name node = name
               ∧ Node.resource_type node = "model"
               ∧ Node.package_name node = "jaffle_shop"
               ∧ Node.config node !! "materialized" ≠ Some "ephemeral"
               ∧ _passes_filters fnmatch_wildcard node ["ord*"] [] [] false
                   [] "all" = true)
      ∧ UnitTestStats.total_models unit_test_stats = length analyzed
      ∧ (UnitTestStats.models_with_unit_tests unit_test_stats
         ≤ length analyzed)%nat
      ∧ ContractStats.with_contracts contract_stats
        + ContractStats.without_contracts contract_stats = length analyzed.
Proof.
  split; [reflexivity|].
  apply (model_details_keys fnmatch_wildcard
           (one_file target_manifest orders_manifest) target_manifest
           "jaffle_shop" ["ord*"] [] [] false [] "all" orders_manifest).
  reflexivity.
Defined.

Lemma coverage_of_returned_models_witness :
  one_file target_manifest orders_manifest target_manifest
  = ManifestFile orders_manifest
  ∧ ∃ unit_test_stats contract_stats model_details,
      analyze_unit_tests_and_contracts fnmatch_wildcard
        (one_file target_manifest orders_manifest) target_manifest
        "jaffle_shop" [] [] [] false [] "all"
      = inr (unit_test_stats, contract_stats, model_details)
      ∧ ∀ name detail,
          model_details !! name = Some detail →
          ModelDetail.tested_columns detail
          = size (filter (λ entry : string * bool, entry.2 = true)
                         (ModelDetail.columns_test detail))
          ∧ (0 < ModelDetail.total_columns detail →
             ModelDetail.coverage_pct detail
             = (float_of_nat (ModelDetail.tested_columns detail)
                / float_of_nat (ModelDetail.total_columns detail)
                * 100)%float)
          ∧ (ModelDetail.total_columns detail = 0 →
             ModelDetail.coverage_pct detail = 0%float).
Proof.
  split; [reflexivity|].
  apply (coverage_of_returned_models fnmatch_wildcard
           (one_file target_manifest orders_manifest) target_manifest
           "jaffle_shop" [] [] [] false [] "all" orders_manifest).
  reflexivity.
Defined.

(** The scenario of the specification, run. *)
Example orders_scenario :
  match analyze_unit_tests_and_contracts fnmatch_wildcard
          (one_file target_manifest orders_manifest) target_manifest
          "jaffle_shop" [] [] [] false [] "all" with
  | inr (unit_test_stats, contract_stats, model_details) =>
      unit_test_stats = UnitTestStats.mk 1 1
      ∧ (λ detail, (ModelDetail.tested_columns detail,
                    ModelDetail.total_columns detail,
                    ModelDetail.coverage_pct detail))
          <$> model_details !! "orders"
        = Some (1, 2, 50%float)
  | inl _ => False
  end.
Proof. by vm_compute. Qed.

Lemma column_tests_ignore_filters_witness :
  (one_file target_manifest orders_manifest target_manifest
   = ManifestFile orders_manifest
   ∧ not_null_orders_id ∈ values (Manifest.nodes orders_manifest)
   ∧ Node.resource_type not_null_orders_id = "test"
   ∧ "model.jaffle_shop.orders" ∈ Node.depends_on_nodes not_null_orders_id
   ∧ get "model.jaffle_shop.orders" (Manifest.nodes orders_manifest)
     = Some (a_model "orders" ["id"; "status"] None)
   ∧ column_signal not_null_orders_id = Some "id"
   ∧ values (Manifest.nodes orders_manifest)
     = [a_model "orders" ["id"; "status"] None; not_null_orders_id]
   ∧ _passes_filters fnmatch_wildcard
       (a_model "orders" ["id"; "status"] None) ["orders"] [] [] false []
       "singular" = true
   ∧ "id" ∈ Node.columns (a_model "orders" ["id"; "status"] None))
  ∧ _passes_filters fnmatch_wildcard not_null_orders_id ["orders"] [] []
      false [] "singular" = false
  ∧ ∃ unit_test_stats contract_stats model_details detail,
      analyze_unit_tests_and_contracts fnmatch_wildcard
        (one_file target_manifest orders_manifest) target_manifest
        "jaffle_shop" ["orders"] [] [] false [] "singular"
      = inr (unit_test_stats, contract_stats, model_details)
      ∧ model_details !! "orders" = Some detail
      ∧ ModelDetail.columns_test detail !! "id" = Some true.
Proof.
  assert (not_null_orders_id ∈ values (Manifest.nodes orders_manifest))
    as Htest by (right; left).
  assert ("model.jaffle_shop.orders"
          ∈ Node.depends_on_nodes not_null_orders_id) as Hdep by left.
  assert ("id" ∈ Node.columns (a_model "orders" ["id"; "status"] None))
    as Hcol by left.
  split; [by split_and!|]. split; [reflexivity|].
  apply (column_tests_ignore_filters fnmatch_wildcard
           (one_file target_manifest orders_manifest) target_manifest
           "jaffle_shop" ["orders"] [] [] false [] "singular"
           orders_manifest not_null_orders_id "model.jaffle_shop.orders"
           (a_model "orders" ["id"; "status"] None) "id"
           [] (a_model "orders" ["id"; "status"] None) [not_null_orders_id]);
    try done.
  intros later Hin Hmodel. apply list_elem_of_singleton in Hin. by subst.
Defined.

Lemma has_contract_is_contract_enforced_witness :
  one_file target_manifest unenforced_manifest target_manifest
  = ManifestFile unenforced_manifest
  ∧ (∃ unit_test_stats contract_stats model_details,
       analyze_unit_tests_and_contracts fnmatch_wildcard
         (one_file target_manifest unenforced_manifest) target_manifest
         "jaffle_shop" [] [] [] false [] "all"
       = inr (unit_test_stats, contract_stats, model_details)
       ∧ ∀ name detail,
           model_details !! name = Some detail →
           ModelDetail.has_contract detail
           = ModelDetail.contract_enforced detail
           ∧ ∃ node,
               node ∈ values (Manifest.nodes unenforced_manifest)
               ∧ Node.name node = name
               ∧ match Node.contract node with
                 | Some contract =>
                     if Contract.enforced contract
                     then ModelDetail.has_contract detail = true
                          ∧ ModelDetail.contract_issues detail = []
                     else ModelDetail.has_contract detail = false
                          ∧ ModelDetail.contract_issues detail
                            = ["Contract not enforced"]
                 | None =>
                     ModelDetail.has_contract detail = false
                     ∧ ModelDetail.contract_issues detail = []
                 end)
    ∧ ∀ node contract,
        Contract.enforced contract = false →
        model_detail unenforced_manifest "jaffle_shop"
          (Node.set_contract (Some contract) node)
        = ModelDetail.set_contract_issues ["Contract not enforced"]
            (model_detail unenforced_manifest "jaffle_shop"
               (Node.set_contract None node)).
Proof.
  split; [reflexivity|].
  apply (has_contract_is_contract_enforced fnmatch_wildcard
           (one_file target_manifest unenforced_manifest) target_manifest
           "jaffle_shop" [] [] [] false [] "all" unenforced_manifest).
  reflexivity.
Defined.

(** The second pass on the scenario: [id] gets marked, [status] does not,
    and a second run changes nothing. *)
Example orders_second_pass :
  let model_details :=
    {[ "orders" := model_detail orders_manifest "jaffle_shop"
                     (a_model "orders" ["id"; "status"] None) ]} in
  let marked := _analyze_column_tests orders_manifest model_details in
  ModelDetail.columns_test <$> marked !! "orders"
  = Some {[ "id" := true; "status" := false ]}
  ∧ _analyze_column_tests orders_manifest marked = marked.
Proof. by vm_compute. Qed.

(** * Further properties *)

(** ** More on the filter evaluator *)

Section FilterRules.
Variable fnmatch : string → string → bool.

(** Property X1. A node passes the filters exactly when it passes each of
    the five rules: some name pattern matches (or none is given), some path
    pattern matches (or none is given), the tag inclusion rule holds (or
    [has_tags] is empty), it has no excluded tag, and, for a test node, a
    requested type [singular] or [generic] is its type. The rules are
    independent of one another and of their order. *)
Theorem passes_filters_rules node model_names model_paths has_tags any_tag
    exclude_tags test_type :
  _passes_filters fnmatch node model_names model_paths has_tags any_tag
                  exclude_tags test_type = true
  ↔ (model_names = []
     ∨ ∃ pattern, pattern ∈ model_names
                  ∧ fnmatch (Node.name node) pattern = true)
    ∧ (model_paths = []
       ∨ ∃ pattern, pattern ∈ model_paths
                    ∧ fnmatch (Node.original_file_path node) pattern = true)
    ∧ (has_tags = []
       ∨ if any_tag
         then ∃ tag, tag ∈ has_tags ∧ tag ∈ Node.tags node
         else ∀ tag, tag ∈ has_tags → tag ∈ Node.tags node)
    ∧ (∀ tag, tag ∈ exclude_tags → tag ∉ Node.tags node)
    ∧ (Node.resource_type node = "test" →
       (test_type = "singular" → Node.test_metadata node = None)
       ∧ (test_type = "generic" → is_Some (Node.test_metadata node))).
Proof.
  unfold _passes_filters.
  rewrite <- !matches_some_pattern.
  destruct (truthy model_names && _); [by split; [|intros []]|].
  destruct (truthy model_paths && _); [by split; [|intros (_ & ? & _)]|].
  assert (truthy has_tags
          && (if any_tag
              then negb (bool_decide
                           (list_to_set has_tags
                            ∩ (list_to_set (Node.tags node) : gset string)
                            ≠ ∅))
              else negb (bool_decide
                           (list_to_set has_tags
                            ⊆ (list_to_set (Node.tags node) : gset string))))
          = false
          ↔ has_tags = []
            ∨ if any_tag
              then ∃ tag, tag ∈ has_tags ∧ tag ∈ Node.tags node
              else ∀ tag, tag ∈ has_tags → tag ∈ Node.tags node) as Hincl.
  { destruct has_tags as [|tag has_tags]; [by split; [left|]|].
    simpl truthy. rewrite andb_true_l.
    destruct any_tag; rewrite negb_false_iff, bool_decide_eq_true.
    - rewrite tags_intersect. split; [by right | by intros [|]].
    - rewrite tags_subset. split; [by right | by intros [|]]. }
  assert (truthy exclude_tags
          && bool_decide
               (list_to_set exclude_tags
                ∩ (list_to_set (Node.tags node) : gset string) ≠ ∅)
          = false
          ↔ ∀ tag, tag ∈ exclude_tags → tag ∉ Node.tags node) as Hexcl.
  { destruct exclude_tags as [|tag exclude_tags].
    - split; [|done]. intros _ tag Hin. by apply elem_of_nil in Hin.
    - simpl truthy. rewrite andb_true_l, bool_decide_eq_false, tags_intersect.
      split.
      + intros Hnone t Hin Htag. apply Hnone. eauto.
      + intros Hnone (t & Hin & Htag). by apply (Hnone t). }
  simpl. rewrite <- Hincl, <- Hexcl.
  destruct (truthy has_tags && _); [by split; [|intros (_ & _ & ? & _)]|].
  destruct (truthy exclude_tags && _);
    [by split; [|intros (_ & _ & _ & ? & _)]|].
  destruct (Node.test_metadata node) as [metadata|]; simpl;
    repeat case_bool_decide; simpl; subst; split; try done;
    try (intros _; split_and!; try done; intros; split; intros; by eauto);
    try (intros (_ & _ & _ & _ & Htype); destruct Htype as [Hs Hg]; try done;
         by (try (specialize (Hs eq_refl)); try (destruct (Hg eq_refl)))).
Qed.

End FilterRules.

(** ** More on the first pass *)

Lemma analyze_nodes_analyzed manifest package_name nodes :
  analyze_nodes manifest package_name nodes
  = analyze_nodes manifest package_name
      (filter (λ node, is_analyzed package_name node) nodes).
Proof.
  unfold analyze_nodes.
  generalize (UnitTestStats.mk 0 0, ContractStats.mk 0 0 [],
              (∅ : gmap string ModelDetail.t)).
  induction nodes as [|node nodes IH]; intros acc; [done|].
  rewrite filter_cons. simpl. rewrite IH.
  destruct (is_analyzed package_name node) eqn:Han; simpl; [done|].
  unfold analyze_node. destruct acc as [[uts cs] md]. by rewrite Han.
Qed.

Section TestType.
Variable fnmatch : string → string → bool.

Lemma passes_test_type node model_names model_paths has_tags any_tag
    exclude_tags test_type :
  Node.resource_type node ≠ "test" →
  _passes_filters fnmatch node model_names model_paths has_tags any_tag
                  exclude_tags test_type
  = _passes_filters fnmatch node model_names model_paths has_tags any_tag
                    exclude_tags "all".
Proof.
  intros Hnode. unfold _passes_filters.
  by rewrite (bool_decide_eq_false_2 _ Hnode).
Qed.

Lemma analyzed_nodes_test_type manifest package_name model_names model_paths
    has_tags any_tag exclude_tags test_type :
  filter (λ node, is_analyzed package_name node)
    (filter_nodes fnmatch manifest model_names model_paths has_tags any_tag
                  exclude_tags test_type)
  = filter (λ node, is_analyzed package_name node)
      (filter_nodes fnmatch manifest model_names model_paths has_tags any_tag
                    exclude_tags "all").
Proof.
  unfold filter_nodes. rewrite !list_filter_filter.
  apply list_filter_iff. intros node.
  destruct (is_analyzed package_name node) eqn:Han; [|by split; intros []].
  apply is_analyzed_spec in Han as (Hmodel & _).
  rewrite passes_test_type; [done|]. by rewrite Hmodel.
Qed.

(** Property X2. The test type never changes what the analysis returns or
    raises: only test nodes are subject to it, the second loop keeps models
    only, and the second pass reads the unfiltered manifest. *)
Theorem test_type_has_no_effect fs manifest_path package_name model_names
    model_paths has_tags any_tag exclude_tags test_type :
  analyze_unit_tests_and_contracts fnmatch fs manifest_path package_name
    model_names model_paths has_tags any_tag exclude_tags test_type
  = analyze_unit_tests_and_contracts fnmatch fs manifest_path package_name
      model_names model_paths has_tags any_tag exclude_tags "all".
Proof.
  destruct (fs manifest_path) as [| | | |manifest] eqn:Hfile;
    try (unfold analyze_unit_tests_and_contracts, _load_manifest;
         by rewrite Hfile).
  rewrite !(analyze_returns _ _ _ _ _ _ _ _ _ _ _ Hfile). simpl.
  rewrite (analyze_nodes_analyzed _ _ (filter_nodes _ _ _ _ _ _ _ test_type)).
  rewrite (analyze_nodes_analyzed _ _ (filter_nodes _ _ _ _ _ _ _ "all")).
  by rewrite analyzed_nodes_test_type.
Qed.

End TestType.

Lemma truthy_nonempty {A} (l : list A) : truthy l ↔ l ≠ [].
Proof. by destruct l. Qed.

(** ** More on the details *)

Lemma initial_columns_test_size (columns : list string)
    (columns_test : gmap string bool) :
  (size (foldl (λ columns_test col, <[col := false]> columns_test)
               columns_test columns)
   ≤ size columns_test + length columns)%nat.
Proof.
  revert columns_test.
  induction columns as [|c columns IH]; intros columns_test; simpl; [lia|].
  specialize (IH (<[c := false]> columns_test)).
  rewrite map_size_insert in IH.
  destruct (columns_test !! c); unfold id in IH; lia.
Qed.

(** Property X3. After the first pass, before any test is looked at, every
    detail has [tested_columns = 0] and [coverage_pct = 0.0], counts its
    columns in [total_columns], and maps exactly its columns to [False] in
    [columns_test]. *)
Theorem first_pass_columns_untested (fnmatch : string → string → bool)
    manifest package_name model_names model_paths has_tags any_tag
    exclude_tags test_type name detail :
  (analyze_nodes manifest package_name
     (filter_nodes fnmatch manifest model_names model_paths has_tags any_tag
                   exclude_tags test_type)).2 !! name = Some detail →
  ModelDetail.tested_columns detail = 0
  ∧ ModelDetail.coverage_pct detail = 0%float
  ∧ ModelDetail.total_columns detail = length (ModelDetail.columns detail)
  ∧ ∀ col, ModelDetail.columns_test detail !! col
           = if decide (col ∈ ModelDetail.columns detail)
             then Some false else None.
Proof.
  intros (node & _ & _ & _ & ->)%analyze_nodes_lookup_Some.
  split_and!; try done. intros col. apply model_detail_columns_test.
Qed.

Lemma apply_marks_only_listed marks (md : gmap string ModelDetail.t) name
    detail col :
  apply_marks marks md !! name = Some detail →
  ModelDetail.columns_test detail !! col = Some true →
  (name, col) ∈ marks
  ∨ ∃ detail0, md !! name = Some detail0
               ∧ ModelDetail.columns_test detail0 !! col = Some true.
Proof.
  revert md. induction marks as [|[n c] marks IH]; intros md Hdetail Htrue.
  - right. eauto.
  - simpl in Hdetail. fold (apply_marks marks (mark_tested n c md)) in Hdetail.
    destruct (IH _ Hdetail Htrue) as [Hin|(detail1 & Hdetail1 & Htrue1)];
      [left; by right|].
    rewrite mark_tested_alter in Hdetail1.
    destruct (decide (n = name)) as [->|Hname].
    + rewrite lookup_alter_eq in Hdetail1.
      destruct (md !! name) as [detail0|] eqn:Hdetail0; [|done].
      injection Hdetail1 as <-. unfold mark_column in Htrue1.
      destruct (bool_decide _); [|right; eauto]. simpl in Htrue1.
      destruct (decide (c = col)) as [->|Hcol]; [left; by left|].
      rewrite lookup_insert_ne in Htrue1 by done. right. eauto.
    + rewrite lookup_alter_ne in Hdetail1 by done. right. eauto.
Qed.

Lemma column_marks_spec manifest name col :
  (name, col) ∈ column_marks manifest
  ↔ ∃ test_node model_id model_node,
      test_node ∈ values (Manifest.nodes manifest)
      ∧ Node.resource_type test_node = "test"
      ∧ model_id ∈ Node.depends_on_nodes test_node
      ∧ get model_id (Manifest.nodes manifest) = Some model_node
      ∧ Node.name model_node = name
      ∧ column_signal test_node = Some col.
Proof.
  unfold column_marks. rewrite list_elem_of_bind. split.
  - intros (test_node & Hmark & Htest).
    case_bool_decide as Htype; [|by apply elem_of_nil in Hmark].
    apply list_elem_of_bind in Hmark as (model_id & Hmark & Hdep).
    destruct (get model_id (Manifest.nodes manifest)) as [model_node|] eqn:Hget;
      [|by apply elem_of_nil in Hmark].
    destruct (column_signal test_node) as [c|] eqn:Hsignal;
      [|by apply elem_of_nil in Hmark].
    apply list_elem_of_singleton in Hmark as [= -> ->].
    exists test_node, model_id, model_node. by rewrite Hsignal.
  - intros (test_node & model_id & model_node & Htest & Htype & Hdep & Hget
            & <- & Hsignal).
    exists test_node. split; [|done]. rewrite bool_decide_eq_true_2 by done.
    apply list_elem_of_bind. exists model_id. split; [|done].
    rewrite Hget, Hsignal. by apply list_elem_of_singleton.
Qed.

Lemma analyze_node_details manifest package_name acc node :
  (analyze_node manifest package_name acc node).2
  = if is_analyzed package_name node
    then <[Node.name node := model_detail manifest package_name node]> acc.2
    else acc.2.
Proof.
  destruct acc as [[uts cs] md]. unfold analyze_node.
  destruct (is_analyzed package_name node); [|done].
  by destruct (contract_enforced node).
Qed.

Lemma analyze_nodes_size manifest package_name nodes :
  let analyzed := filter (λ node, is_analyzed package_name node) nodes in
  (size (analyze_nodes manifest package_name nodes).2 ≤ length analyzed)%nat
  ∧ (NoDup (Node.name <$> analyzed) →
     size (analyze_nodes manifest package_name nodes).2 = length analyzed).
Proof.
  simpl. induction nodes as [|node nodes [IHle IHeq]] using rev_ind;
    [by split|].
  rewrite analyze_nodes_snoc, analyze_node_details, filter_app, length_app.
  rewrite filter_cons, filter_nil.
  destruct (is_analyzed package_name node) eqn:Han; simpl.
  - rewrite map_size_insert. unfold id. split.
    + destruct (_ !! Node.name node); lia.
    + rewrite fmap_app. intros (Hnodup & Hfresh & _)%NoDup_app.
      destruct (_ !! Node.name node) as [built|] eqn:Hbuilt.
      * exfalso.
        apply analyze_nodes_lookup_Some in Hbuilt
          as (node' & Hin & Han' & Hname & _).
        apply (Hfresh (Node.name node)); [|by left].
        rewrite <- Hname. apply list_elem_of_fmap_2.
        apply list_elem_of_filter. split; [by apply Is_true_true | done].
      * rewrite IHeq by done. lia.
  - rewrite app_nil_r, Nat.add_0_r. by split.
Qed.

Section Returned.
Variable fnmatch : string → string → bool.
Variables (fs : FileSystem) (manifest_path package_name : string).
Variables (model_names model_paths has_tags : list string) (any_tag : bool).
Variables (exclude_tags : list string) (test_type : string).

Lemma analyze_returned_loaded returned :
  analyze_unit_tests_and_contracts fnmatch fs manifest_path package_name
    model_names model_paths has_tags any_tag exclude_tags test_type
  = inr returned →
  ∃ manifest, fs manifest_path = ManifestFile manifest.
Proof.
  unfold analyze_unit_tests_and_contracts, _load_manifest.
  destruct (fs manifest_path) as [| | | |manifest]; try done. eauto.
Qed.

(** Property X4. In every returned detail the keys of [columns_test] are the
    names in [columns], [total_columns] is their number, and
    [tested_columns] never exceeds [total_columns]. *)
Theorem returned_columns unit_test_stats contract_stats model_details name
    detail :
  analyze_unit_tests_and_contracts fnmatch fs manifest_path package_name
    model_names model_paths has_tags any_tag exclude_tags test_type
  = inr (unit_test_stats, contract_stats, model_details) →
  model_details !! name = Some detail →
  (∀ col, is_Some (ModelDetail.columns_test detail !! col)
          ↔ col ∈ ModelDetail.columns detail)
  ∧ ModelDetail.total_columns detail = length (ModelDetail.columns detail)
  ∧ (ModelDetail.tested_columns detail
     ≤ ModelDetail.total_columns detail)%nat.
Proof.
  intros Hrun Hdetail.
  destruct (analyze_returned_loaded _ Hrun) as [manifest Hfile].
  destruct (returned_detail _ _ _ _ _ _ _ _ _ _ _ _ _ _ _ _
              Hfile Hrun Hdetail)
    as (node & marked & _ & _ & _ & _ & (Hsame & Hdom & _) & ->).
  assert (∀ col, is_Some (ModelDetail.columns_test marked !! col)
                 ↔ col ∈ Node.columns node) as Hkeys.
  { intros col. rewrite <- elem_of_dom, Hdom, elem_of_dom.
    rewrite model_detail_columns_test.
    destruct (decide (col ∈ Node.columns node)); split; done. }
  unfold calculate_model. simpl. rewrite Hsame. simpl. split_and!; try done.
  rewrite count_tested_size.
  etrans; [apply map_size_filter|].
  rewrite <- size_dom, Hdom, size_dom.
  etrans; [apply initial_columns_test_size|]. by rewrite map_size_empty.
Qed.

(** Property X5. A column is reported tested only if a test node points at
    it: some test node of the manifest has a dependency that resolves to a
    node with the model's name, and its column signal is that column. *)
Theorem marked_columns_have_tests manifest unit_test_stats contract_stats
    model_details name detail col :
  fs manifest_path = ManifestFile manifest →
  analyze_unit_tests_and_contracts fnmatch fs manifest_path package_name
    model_names model_paths has_tags any_tag exclude_tags test_type
  = inr (unit_test_stats, contract_stats, model_details) →
  model_details !! name = Some detail →
  ModelDetail.columns_test detail !! col = Some true →
  ∃ test_node model_id model_node,
    test_node ∈ values (Manifest.nodes manifest)
    ∧ Node.resource_type test_node = "test"
    ∧ model_id ∈ Node.depends_on_nodes test_node
    ∧ get model_id (Manifest.nodes manifest) = Some model_node
    ∧ Node.name model_node = name
    ∧ column_signal test_node = Some col.
Proof.
  intros Hfile Hrun Hdetail Htrue.
  rewrite (analyze_returns _ _ _ _ _ _ _ _ _ _ _ Hfile) in Hrun.
  simpl in Hrun. injection Hrun as <- <- <-.
  rewrite lookup_fmap in Hdetail.
  destruct (_analyze_column_tests _ _ !! name) as [marked|] eqn:Hmarked;
    [|done].
  injection Hdetail as <-. simpl in Htrue.
  rewrite _analyze_column_tests_marks in Hmarked.
  apply column_marks_spec.
  destruct (apply_marks_only_listed _ _ _ _ _ Hmarked Htrue)
    as [Hin|(built & Hbuilt & Hbuilt_true)]; [done|].
  apply analyze_nodes_lookup_Some in Hbuilt as (node & _ & _ & _ & ->).
  rewrite model_detail_columns_test in Hbuilt_true. by destruct (decide _).
Qed.

(** Property X6. [model_details] has at most [total_models] entries: the
    total counts analyzed nodes, the mapping their names. The two agree when
    the analyzed nodes have distinct names. *)
Theorem model_details_size manifest unit_test_stats contract_stats
    model_details :
  fs manifest_path = ManifestFile manifest →
  analyze_unit_tests_and_contracts fnmatch fs manifest_path package_name
    model_names model_paths has_tags any_tag exclude_tags test_type
  = inr (unit_test_stats, contract_stats, model_details) →
  let analyzed :=
    filter (λ node,
              Node.resource_type node = "model"
              ∧ Node.package_name node = package_name
              ∧ Node.config node !! "materialized" ≠ Some "ephemeral"
              ∧ _passes_filters fnmatch node model_names model_paths has_tags
                                any_tag exclude_tags test_type = true)
           (values (Manifest.nodes manifest)) in
  (size model_details ≤ UnitTestStats.total_models unit_test_stats)%nat
  ∧ (NoDup (Node.name <$> analyzed) →
     size model_details = UnitTestStats.total_models unit_test_stats).
Proof.
  intros Hfile Hrun analyzed.
  rewrite (analyze_returns _ _ _ _ _ _ _ _ _ _ _ Hfile) in Hrun.
  simpl in Hrun. injection Hrun as <- _ <-.
  set (filtered := filter_nodes fnmatch manifest model_names model_paths
                     has_tags any_tag exclude_tags test_type).
  destruct (analyze_nodes_stats manifest package_name filtered)
    as (Htotal & _). simpl in Htotal. rewrite Htotal.
  assert (filter (λ node, is_analyzed package_name node && true) filtered
          = filter (λ node, is_analyzed package_name node) filtered) as ->.
  { apply list_filter_iff. intros node. by rewrite andb_true_r. }
  assert (filter (λ node, is_analyzed package_name node) filtered = analyzed)
    as Hanalyzed.
  { unfold filtered, filter_nodes, analyzed. rewrite list_filter_filter.
    apply list_filter_iff. intros node.
    rewrite !Is_true_true, is_analyzed_spec. tauto. }
  assert (size (calculate_model
                <$> _analyze_column_tests manifest
                      (analyze_nodes manifest package_name filtered).2)
          = size (analyze_nodes manifest package_name filtered).2) as ->.
  { rewrite map_size_fmap, <- !size_dom. f_equal.
    apply set_eq. intros name. rewrite !elem_of_dom.
    apply second_pass_keys. }
  rewrite <- Hanalyzed. apply analyze_nodes_size.
Qed.

Lemma filter_analyzed_nodes manifest (p : Node.t → bool) :
  filter (λ node, is_analyzed package_name node && p node)
    (filter_nodes fnmatch manifest model_names model_paths has_tags any_tag
                  exclude_tags test_type)
  = filter (λ node, p node)
      (analyzed_nodes fnmatch manifest package_name model_names model_paths
                      has_tags any_tag exclude_tags test_type).
Proof.
  unfold analyzed_nodes. rewrite list_filter_filter.
  apply list_filter_iff. intros node. rewrite andb_True. tauto.
Qed.

(** Property X7. [models_with_unit_tests] is the number of analyzed nodes
    for which the manifest has a unit test of that model name and of the
    target package; a returned detail counts exactly those unit tests, and
    its [unit_test_pct] is [100.0] when there is one and [0.0] otherwise. *)
Theorem unit_test_counts manifest unit_test_stats contract_stats
    model_details :
  fs manifest_path = ManifestFile manifest →
  analyze_unit_tests_and_contracts fnmatch fs manifest_path package_name
    model_names model_paths has_tags any_tag exclude_tags test_type
  = inr (unit_test_stats, contract_stats, model_details) →
  let tests_of name :=
    filter (λ test, UnitTest.model test = name
                    ∧ UnitTest.package_name test = package_name)
           (values (Manifest.unit_tests manifest)) in
  UnitTestStats.models_with_unit_tests unit_test_stats
  = length (filter (λ node, tests_of (Node.name node) ≠ [])
                   (analyzed_nodes fnmatch manifest package_name model_names
                      model_paths has_tags any_tag exclude_tags test_type))
  ∧ ∀ name detail,
      model_details !! name = Some detail →
      ModelDetail.unit_tests detail = length (tests_of name)
      ∧ ModelDetail.unit_test_pct detail
        = if decide (ModelDetail.unit_tests detail = 0)
          then 0%float else 100%float.
Proof.
  intros Hfile Hrun tests_of. split.
  - rewrite (analyze_returns _ _ _ _ _ _ _ _ _ _ _ Hfile) in Hrun.
    simpl in Hrun. injection Hrun as <- _ _.
    match goal with
    | |- context [analyze_nodes _ _ ?filtered] =>
        destruct (analyze_nodes_stats manifest package_name filtered)
          as (_ & Hunit & _)
    end.
    simpl in Hunit. rewrite Hunit, filter_analyzed_nodes.
    apply (f_equal length), list_filter_iff. intros node.
    apply truthy_nonempty.
  - intros name detail Hdetail.
    destruct (returned_detail _ _ _ _ _ _ _ _ _ _ _ _ _ _ _ _
                Hfile Hrun Hdetail)
      as (node & marked & _ & _ & _ & <- & (-> & _) & ->).
    simpl. split; [done|].
    by destruct (unit_tests_of manifest package_name node).
Qed.

(** Property X8. [with_contracts] is the number of analyzed nodes whose
    contract is present and enforced, [without_contracts] the number of the
    others, and no run puts anything into [contract_stats.contract_issues]. *)
Theorem contract_counts manifest unit_test_stats contract_stats
    model_details :
  fs manifest_path = ManifestFile manifest →
  analyze_unit_tests_and_contracts fnmatch fs manifest_path package_name
    model_names model_paths has_tags any_tag exclude_tags test_type
  = inr (unit_test_stats, contract_stats, model_details) →
  let analyzed :=
    analyzed_nodes fnmatch manifest package_name model_names model_paths
                   has_tags any_tag exclude_tags test_type in
  let enforced node :=
    ∃ contract, Node.contract node = Some contract
                ∧ Contract.enforced contract = true in
  ContractStats.with_contracts contract_stats
  = length (filter (λ node, contract_enforced node) analyzed)
  ∧ ContractStats.without_contracts contract_stats
    = length (filter (λ node, ¬ contract_enforced node) analyzed)
  ∧ ContractStats.contract_issues contract_stats = []
  ∧ ∀ node, contract_enforced node = true ↔ enforced node.
Proof.
  intros Hfile Hrun analyzed enforced.
  rewrite (analyze_returns _ _ _ _ _ _ _ _ _ _ _ Hfile) in Hrun.
  simpl in Hrun. injection Hrun as _ <- _.
  match goal with
  | |- context [analyze_nodes _ _ ?filtered] =>
      destruct (analyze_nodes_stats manifest package_name filtered)
        as (_ & _ & Hwith & Hwithout & Hissues)
  end.
  simpl in *. rewrite Hwith, Hwithout, !filter_analyzed_nodes.
  split_and!; try done.
  - apply (f_equal length), list_filter_iff. intros node.
    apply negb_True.
  - intros node. unfold contract_enforced, has_contract, enforced.
    destruct (Node.contract node) as [[enforced_flag]|]; simpl.
    + split; [intros ->; eauto | by intros (? & [= <-] & ?)].
    + split; [done | by intros (? & ? & _)].
Qed.

End Returned.

(** ** cli.py: locating the manifest *)

Lemma find_first {A} (f : A → bool) (l : list A) :
  match find f l with
  | Some x =>
      ∃ before after,
        l = (before ++ x :: after)%list
        ∧ f x = true
        ∧ ∀ y, y ∈ before → f y = false
  | None => ∀ y, y ∈ l → f y = false
  end.
Proof.
  induction l as [|a l IH]; simpl.
  - intros y Hin. by apply elem_of_nil in Hin.
  - destruct (f a) eqn:Hfa.
    + exists [], l. split_and!; try done.
      intros y Hin. by apply elem_of_nil in Hin.
    + destruct (find f l) as [x|].
      * destruct IH as (before & after & -> & Hfx & Hbefore).
        exists (a :: before), after. split_and!; try done.
        intros y [->|Hin]%elem_of_cons; auto.
      * intros y [->|Hin]%elem_of_cons; auto.
Qed.

Lemma path_exists_false fs path :
  path_exists fs path = false ↔ fs path = NoFile.
Proof. unfold path_exists. by destruct (fs path). Qed.

Lemma find_manifest_found fs path :
  _find_manifest fs = Some path → path ∈ search_paths ∧ fs path ≠ NoFile.
Proof.
  unfold _find_manifest. intros Hfound.
  pose proof (find_first (path_exists fs) search_paths) as Hfind.
  rewrite Hfound in Hfind.
  destruct Hfind as (before & after & -> & Hpath & _). split.
  - apply elem_of_app. right. by left.
  - intros Hnone%path_exists_false. congruence.
Qed.

Lemma find_manifest_none fs :
  _find_manifest fs = None → ∀ path, path ∈ search_paths → fs path = NoFile.
Proof.
  unfold _find_manifest. intros Hnone path Hin.
  pose proof (find_first (path_exists fs) search_paths) as Hfind.
  rewrite Hnone in Hfind. by apply path_exists_false, Hfind.
Qed.

(** Property X9. [_find_manifest] returns the first of its three search
    paths that exists, and [None] exactly when none of them exists. *)
Theorem find_manifest_first fs :
  match _find_manifest fs with
  | Some path =>
      ∃ before after,
        search_paths = (before ++ path :: after)%list
        ∧ fs path ≠ NoFile
        ∧ ∀ earlier, earlier ∈ before → fs earlier = NoFile
  | None => ∀ path, path ∈ search_paths → fs path = NoFile
  end.
Proof.
  pose proof (path_exists_false fs) as Hexists.
  unfold _find_manifest.
  pose proof (find_first (path_exists fs) search_paths) as Hfind.
  destruct (find (path_exists fs) search_paths) as [path|].
  - destruct Hfind as (before & after & Hsplit & Hpath & Hbefore).
    exists before, after. split_and!; [done| |].
    + intros Hnone%Hexists. congruence.
    + intros earlier Hin. by apply Hexists, Hbefore.
  - intros path Hin. by apply Hexists, Hfind.
Qed.

Section Main.
Variable fnmatch : string → string → bool.
Variables (fs : FileSystem) (package : string).
Variables (model_name model_path has_tags : list string) (any_tag : bool).
Variables (exclude_tag : list string) (test_type : string).

Lemma search_paths_truthy path :
  path ∈ search_paths → truthy_str (Some path) = true.
Proof.
  unfold search_paths. rewrite !elem_of_cons, elem_of_nil.
  by intros [->|[->|[->|[]]]].
Qed.

Lemma analyze_not_found manifest_path :
  (∃ msg,
     analyze_unit_tests_and_contracts fnmatch fs manifest_path package
       model_name model_path has_tags any_tag exclude_tag test_type
     = inl (ManifestNotFoundError msg))
  ↔ fs manifest_path = NoFile.
Proof.
  destruct (fs manifest_path) as [| | | |manifest] eqn:Hfile.
  - split; [done|]. intros _. eexists.
    unfold analyze_unit_tests_and_contracts, _load_manifest.
    by rewrite Hfile.
  - split; [|done]. intros [msg Hrun]. revert Hrun.
    unfold analyze_unit_tests_and_contracts, _load_manifest.
    by rewrite Hfile.
  - split; [|done]. intros [msg Hrun]. revert Hrun.
    unfold analyze_unit_tests_and_contracts, _load_manifest.
    by rewrite Hfile.
  - split; [|done]. intros [msg Hrun]. revert Hrun.
    unfold analyze_unit_tests_and_contracts, _load_manifest.
    by rewrite Hfile.
  - split; [|done]. intros [msg Hrun].
    by rewrite (analyze_returns _ _ _ _ _ _ _ _ _ _ _ Hfile) in Hrun.
Qed.

(** Property X10. [main] analyses the manifest file it is given whenever
    that is a non-empty string, without searching; otherwise it analyses the
    first search path that exists. It fails with [ManifestNotFoundError]
    exactly when the given file is missing, or none is given and no search
    path exists. *)
Theorem main_analysis_manifest manifest_file :
  (∀ path, manifest_file = Some path → path ≠ "" →
     main_analysis fnmatch fs manifest_file package model_name model_path
       has_tags any_tag exclude_tag test_type
     = analyze_unit_tests_and_contracts fnmatch fs path package model_name
         model_path has_tags any_tag exclude_tag test_type)
  ∧ (manifest_file = None ∨ manifest_file = Some "" →
     main_analysis fnmatch fs manifest_file package model_name model_path
       has_tags any_tag exclude_tag test_type
     = match _find_manifest fs with
       | Some path =>
           analyze_unit_tests_and_contracts fnmatch fs path package
             model_name model_path has_tags any_tag exclude_tag test_type
       | None =>
           inl (ManifestNotFoundError
                  ("Could not find manifest.json automatically. "
                   +:+ "Please specify with --manifest"))
       end)
  ∧ ((∃ msg,
        main_analysis fnmatch fs manifest_file package model_name model_path
          has_tags any_tag exclude_tag test_type
        = inl (ManifestNotFoundError msg))
     ↔ (∃ path, manifest_file = Some path ∧ path ≠ "" ∧ fs path = NoFile)
       ∨ ((manifest_file = None ∨ manifest_file = Some "")
          ∧ ∀ path, path ∈ search_paths → fs path = NoFile)).
Proof.
  assert (∀ path, manifest_file = Some path → path ≠ "" →
            main_analysis fnmatch fs manifest_file package model_name
              model_path has_tags any_tag exclude_tag test_type
            = analyze_unit_tests_and_contracts fnmatch fs path package
                model_name model_path has_tags any_tag exclude_tag test_type)
    as Hgiven.
  { intros path -> Hpath. unfold main_analysis, main_manifest_path. simpl.
    rewrite (bool_decide_eq_false_2 _ Hpath). simpl.
    by rewrite (bool_decide_eq_false_2 _ Hpath). }
  assert (manifest_file = None ∨ manifest_file = Some "" →
          main_analysis fnmatch fs manifest_file package model_name model_path
            has_tags any_tag exclude_tag test_type
          = match _find_manifest fs with
            | Some path =>
                analyze_unit_tests_and_contracts fnmatch fs path package
                  model_name model_path has_tags any_tag exclude_tag
                  test_type
            | None =>
                inl (ManifestNotFoundError
                       ("Could not find manifest.json automatically. "
                        +:+ "Please specify with --manifest"))
            end) as Hsearch.
  { intros Hnone. unfold main_analysis, main_manifest_path.
    assert (truthy_str manifest_file = false) as ->
      by (by destruct Hnone as [-> | ->]).
    destruct (_find_manifest fs) as [path|] eqn:Hfind; [|done].
    apply find_manifest_found in Hfind as [Hin _].
    by rewrite search_paths_truthy. }
  split_and!; [done..|].
  destruct manifest_file as [path|].
  - destruct (decide (path = "")) as [->|Hpath].
    + rewrite Hsearch by auto.
      destruct (_find_manifest fs) as [found|] eqn:Hfind.
      * apply find_manifest_found in Hfind as [Hin Hfound].
        rewrite analyze_not_found. split; [done|].
        intros [(p & [= <-] & Hp & _)|[_ Hnone]]; [done|].
        by apply Hnone.
      * split; [|eauto]. intros _. right. split; [auto|].
        by apply find_manifest_none.
    + rewrite (Hgiven path) by done. rewrite analyze_not_found. split.
      * intros Hnone. left. eauto.
      * intros [(p & [= <-] & _ & Hnone)|[[|[= ->]] _]]; done.
  - rewrite Hsearch by auto.
    destruct (_find_manifest fs) as [found|] eqn:Hfind.
    + apply find_manifest_found in Hfind as [Hin Hfound].
      rewrite analyze_not_found. split; [done|].
      intros [(p & [=] & _)|[_ Hnone]]. by apply Hnone.
    + split; [|eauto]. intros _. right. split; [auto|].
      by apply find_manifest_none.
Qed.

End Main.

(** ** cli.py: the thresholds *)

(** Property X11. The exit code of [_check_thresholds] is 0 or 1; it can be
    1 only if some threshold is positive, so the default thresholds never
    fail; and when nothing was analyzed it is 1 as soon as some threshold is
    positive. *)
Theorem check_thresholds_exit_code unit_stats contract_stats model_details
    unit_thresh col_thresh contract_thresh :
  let positive threshold := PrimFloat.ltb 0 threshold = true in
  (_check_thresholds unit_stats contract_stats model_details unit_thresh
     col_thresh contract_thresh = 0
   ∨ _check_thresholds unit_stats contract_stats model_details unit_thresh
       col_thresh contract_thresh = 1)
  ∧ (_check_thresholds unit_stats contract_stats model_details unit_thresh
       col_thresh contract_thresh = 1 →
     positive unit_thresh ∨ positive col_thresh ∨ positive contract_thresh)
  ∧ (_check_thresholds (UnitTestStats.mk 0 0) (ContractStats.mk 0 0 []) []
       unit_thresh col_thresh contract_thresh = 1
     ↔ positive unit_thresh ∨ positive col_thresh
       ∨ positive contract_thresh).
Proof.
  simpl. split_and!.
  - unfold _check_thresholds.
    destruct (PrimFloat.ltb 0 contract_thresh && _); [by right|].
    destruct (PrimFloat.ltb 0 col_thresh && _); [by right|].
    destruct (PrimFloat.ltb 0 unit_thresh && _); [by right | by left].
  - unfold _check_thresholds.
    destruct (PrimFloat.ltb 0 unit_thresh); [by left|].
    destruct (PrimFloat.ltb 0 col_thresh); [by right; left|].
    destruct (PrimFloat.ltb 0 contract_thresh); [by right; right|].
    done.
  - unfold _check_thresholds. simpl.
    destruct (PrimFloat.ltb 0 unit_thresh),
      (PrimFloat.ltb 0 col_thresh),
      (PrimFloat.ltb 0 contract_thresh); simpl; split; try done; auto.
    by intros [|[|]].
Qed.

(** ** More on the whole run *)

Lemma calculate_model_normalized tested pct detail :
  calculate_model (ModelDetail.set_coverage tested pct detail)
  = calculate_model detail.
Proof. by destruct detail. Qed.

Lemma set_coverage_calculate_model tested pct detail :
  ModelDetail.set_coverage tested pct (calculate_model detail)
  = ModelDetail.set_coverage tested pct detail.
Proof. by destruct detail. Qed.

Lemma set_coverage_mark_column tested pct col detail :
  ModelDetail.set_coverage tested pct (mark_column col detail)
  = mark_column col (ModelDetail.set_coverage tested pct detail).
Proof.
  unfold mark_column. simpl.
  by destruct (bool_decide _), detail.
Qed.

Lemma set_coverage_apply_marks tested pct marks
    (md : gmap string ModelDetail.t) :
  ModelDetail.set_coverage tested pct <$> apply_marks marks md
  = apply_marks marks (ModelDetail.set_coverage tested pct <$> md).
Proof.
  revert md. induction marks as [|[n c] marks IH]; intros md; [done|].
  simpl. fold (apply_marks marks (mark_tested n c md)).
  fold (apply_marks marks
          (mark_tested n c (ModelDetail.set_coverage tested pct <$> md))).
  rewrite IH. f_equal. rewrite !mark_tested_alter.
  apply map_eq. intros name. rewrite lookup_fmap.
  destruct (decide (n = name)) as [->|Hne].
  - rewrite !lookup_alter_eq, lookup_fmap.
    destruct (md !! name); simpl; [|done].
    by rewrite set_coverage_mark_column.
  - by rewrite !lookup_alter_ne, lookup_fmap.
Qed.

Lemma filter_none {A} (P : A → Prop) `{!∀ x, Decision (P x)} (l : list A) :
  (∀ x, x ∈ l → ¬ P x) → filter P l = [].
Proof.
  induction l as [|a l IH]; intros Hnone; [done|].
  rewrite filter_cons_False by (apply Hnone; by left).
  apply IH. intros x Hin. apply Hnone. by right.
Qed.

Section WholeRun.
Variable fnmatch : string → string → bool.
Variables (fs : FileSystem) (manifest_path package_name : string).
Variables (model_names model_paths has_tags : list string) (any_tag : bool).
Variables (exclude_tags : list string) (test_type : string).

(** Property X12. When no node of the manifest is a non-ephemeral model of
    the package that passes the filters, the run does not fail: it returns
    zero totals, no contract issue and an empty [model_details]. *)
Theorem nothing_analyzed manifest :
  fs manifest_path = ManifestFile manifest →
  (∀ node,
     node ∈ values (Manifest.nodes manifest) →
     ¬ (Node.resource_type node = "model"
        ∧ Node.package_name node = package_name
        ∧ Node.config node !! "materialized" ≠ Some "ephemeral"
        ∧ _passes_filters fnmatch node model_names model_paths has_tags
                          any_tag exclude_tags test_type = true)) →
  analyze_unit_tests_and_contracts fnmatch fs manifest_path package_name
    model_names model_paths has_tags any_tag exclude_tags test_type
  = inr (UnitTestStats.mk 0 0, ContractStats.mk 0 0 [], ∅).
Proof.
  intros Hfile Hnone.
  rewrite (analyze_returns _ _ _ _ _ _ _ _ _ _ _ Hfile). simpl.
  rewrite analyze_nodes_analyzed.
  assert (filter (λ node, is_analyzed package_name node)
            (filter_nodes fnmatch manifest model_names model_paths has_tags
                          any_tag exclude_tags test_type) = []) as ->.
  { apply filter_none.
    intros node [Hpass Hin]%list_elem_of_filter Han.
    apply (Hnone node Hin). apply Is_true_true in Hpass, Han.
    apply is_analyzed_spec in Han. tauto. }
  simpl. do 2 f_equal.
  rewrite _analyze_column_tests_marks.
  apply map_eq. intros name. rewrite lookup_fmap, lookup_empty.
  pose proof (apply_marks_marks_only (column_marks manifest) ∅ name) as Hext.
  rewrite lookup_empty in Hext. by inversion Hext.
Qed.

(** Property X13. The returned [model_details] is a fixed point of the last
    two steps: running the second pass and the coverage calculation on it
    again, on the same manifest, gives it back. *)
Theorem returned_details_fixed_point manifest unit_test_stats contract_stats
    model_details column_stats :
  fs manifest_path = ManifestFile manifest →
  analyze_unit_tests_and_contracts fnmatch fs manifest_path package_name
    model_names model_paths has_tags any_tag exclude_tags test_type
  = inr (unit_test_stats, contract_stats, model_details) →
  (_calculate_coverage_stats
     (_analyze_column_tests manifest model_details) column_stats).1
  = model_details.
Proof.
  intros Hfile Hrun.
  rewrite (analyze_returns _ _ _ _ _ _ _ _ _ _ _ Hfile) in Hrun.
  simpl in Hrun. injection Hrun as _ _ <-.
  unfold _calculate_coverage_stats. simpl.
  rewrite !_analyze_column_tests_marks.
  set (marks := column_marks manifest).
  set (built := (analyze_nodes _ _ _).2).
  transitivity (calculate_model
                <$> (ModelDetail.set_coverage 0 0%float
                     <$> apply_marks marks
                           (calculate_model <$> apply_marks marks built))).
  { rewrite <- map_fmap_compose. apply map_fmap_ext. intros name detail _.
    simpl. by rewrite calculate_model_normalized. }
  rewrite set_coverage_apply_marks, <- map_fmap_compose.
  assert (ModelDetail.set_coverage 0 0%float ∘ calculate_model
          <$> apply_marks marks built
          = ModelDetail.set_coverage 0 0%float <$> apply_marks marks built)
    as ->.
  { apply map_fmap_ext. intros name detail _. simpl.
    apply set_coverage_calculate_model. }
  rewrite <- set_coverage_apply_marks, apply_marks_idemp.
  rewrite <- map_fmap_compose. apply map_fmap_ext. intros name detail _.
  simpl. apply calculate_model_normalized.
Qed.

End WholeRun.

(** ** The order of the manifest *)

Lemma get_elem_of {A} (k : string) (d : list (string * A)) v :
  NoDup d.*1 → get k d = Some v ↔ (k, v) ∈ d.
Proof.
  induction d as [|[k' v'] d IH]; simpl; intros Hnodup.
  - split; [done|]. intros Hin. by apply elem_of_nil in Hin.
  - apply NoDup_cons in Hnodup as [Hfresh Hnodup].
    case_bool_decide as Hk.
    + subst k'. split.
      * intros [= ->]. by left.
      * intros [[= ->]|Hin]%elem_of_cons; [done|].
        exfalso. apply Hfresh. by apply (list_elem_of_fmap_2 fst) in Hin.
    + rewrite IH by done. split; [by right|].
      by intros [[= <-]|Hin]%elem_of_cons.
Qed.

Lemma get_Permutation {A} (k : string) (d1 d2 : list (string * A)) :
  d1 ≡ₚ d2 → NoDup d1.*1 → get k d1 = get k d2.
Proof.
  intros Hperm Hnodup1.
  assert (NoDup d2.*1) as Hnodup2 by (by rewrite <- Hperm).
  destruct (get k d1) as [v|] eqn:Hget1.
  - symmetry. apply get_elem_of; [done|]. rewrite <- Hperm.
    by apply get_elem_of.
  - destruct (get k d2) as [v|] eqn:Hget2; [|done].
    apply get_elem_of in Hget2; [|done]. rewrite <- Hperm in Hget2.
    apply get_elem_of in Hget2; [congruence | done].
Qed.

Lemma apply_marks_Permutation marks1 marks2 md :
  marks1 ≡ₚ marks2 → apply_marks marks1 md = apply_marks marks2 md.
Proof.
  intros Hperm. revert md.
  induction Hperm as [|[n c] l1 l2 _ IH|[n1 c1] [n2 c2] l|l1 l2 l3 _ IH1 _ IH2];
    intros md.
  - done.
  - apply IH.
  - simpl. by rewrite mark_tested_comm.
  - by rewrite IH1.
Qed.

Lemma column_marks_Permutation manifest1 manifest2 :
  Manifest.nodes manifest1 ≡ₚ Manifest.nodes manifest2 →
  NoDup (Manifest.nodes manifest1).*1 →
  column_marks manifest1 ≡ₚ column_marks manifest2.
Proof.
  intros Hperm Hnodup. unfold column_marks.
  assert (values (Manifest.nodes manifest1)
          ≡ₚ values (Manifest.nodes manifest2)) as ->
    by (unfold values; by rewrite Hperm).
  apply reflexive_eq, list_bind_ext; [|done]. intros test_node.
  destruct (bool_decide _); [|done].
  apply list_bind_ext; [|done]. intros model_id.
  by rewrite (get_Permutation model_id _ _ Hperm Hnodup).
Qed.

Lemma fmap_NoDup_inj {A B} (f : A → B) (l : list A) x y :
  NoDup (f <$> l) → x ∈ l → y ∈ l → f x = f y → x = y.
Proof.
  induction l as [|a l IH]; simpl; intros Hnodup Hx Hy Heq.
  - by apply elem_of_nil in Hx.
  - apply NoDup_cons in Hnodup as [Hfresh Hnodup].
    apply elem_of_cons in Hx as [->|Hx], Hy as [->|Hy]; try done.
    + exfalso. apply Hfresh. rewrite Heq. by apply list_elem_of_fmap_2.
    + exfalso. apply Hfresh. rewrite <- Heq. by apply list_elem_of_fmap_2.
    + by apply IH.
Qed.

Lemma analyze_nodes_lookup_NoDup manifest package_name nodes node :
  NoDup (Node.name <$> filter (λ node, is_analyzed package_name node) nodes) →
  node ∈ nodes →
  is_analyzed package_name node = true →
  (analyze_nodes manifest package_name nodes).2 !! Node.name node
  = Some (model_detail manifest package_name node).
Proof.
  intros Hnodup Hin Han.
  destruct (analyze_nodes_lookup_is_Some manifest package_name nodes node
              Hin Han) as [built Hbuilt].
  rewrite Hbuilt.
  apply analyze_nodes_lookup_Some in Hbuilt
    as (node' & Hin' & Han' & Hname & ->).
  do 2 f_equal. apply (fmap_NoDup_inj Node.name _ _ _ Hnodup); [..|done];
    apply list_elem_of_filter; by rewrite Is_true_true.
Qed.

Lemma unit_tests_of_Permutation manifest1 manifest2 package_name node :
  Manifest.unit_tests manifest1 ≡ₚ Manifest.unit_tests manifest2 →
  unit_tests_of manifest1 package_name node
  ≡ₚ unit_tests_of manifest2 package_name node.
Proof. intros Hperm. unfold unit_tests_of, values. by rewrite Hperm. Qed.

Lemma truthy_Permutation {A} (l1 l2 : list A) :
  l1 ≡ₚ l2 → truthy l1 = truthy l2.
Proof.
  intros Hperm. apply Permutation_length in Hperm.
  by destruct l1, l2.
Qed.

Lemma model_detail_Permutation manifest1 manifest2 package_name node :
  Manifest.unit_tests manifest1 ≡ₚ Manifest.unit_tests manifest2 →
  model_detail manifest1 package_name node
  = model_detail manifest2 package_name node.
Proof.
  intros Hperm. unfold model_detail.
  pose proof (unit_tests_of_Permutation _ _ package_name node Hperm) as Htests.
  by rewrite (Permutation_length Htests), (truthy_Permutation _ _ Htests).
Qed.

Lemma analyze_nodes_Permutation manifest1 manifest2 package_name nodes1
    nodes2 :
  Manifest.unit_tests manifest1 ≡ₚ Manifest.unit_tests manifest2 →
  nodes1 ≡ₚ nodes2 →
  NoDup (Node.name
         <$> filter (λ node, is_analyzed package_name node) nodes1) →
  analyze_nodes manifest1 package_name nodes1
  = analyze_nodes manifest2 package_name nodes2.
Proof.
  intros Htests Hperm Hnodup1.
  assert (NoDup (Node.name
                 <$> filter (λ node, is_analyzed package_name node) nodes2))
    as Hnodup2 by (by rewrite <- Hperm).
  pose proof (analyze_nodes_stats manifest1 package_name nodes1)
    as (Ht1 & Hu1 & Hw1 & Ho1 & Hi1).
  pose proof (analyze_nodes_stats manifest2 package_name nodes2)
    as (Ht2 & Hu2 & Hw2 & Ho2 & Hi2).
  simpl in *.
  assert ((analyze_nodes manifest1 package_name nodes1).2
          = (analyze_nodes manifest2 package_name nodes2).2) as Hdetails.
  { apply map_eq. intros name.
    destruct ((analyze_nodes manifest1 package_name nodes1).2 !! name)
      as [built|] eqn:Hbuilt.
    - apply analyze_nodes_lookup_Some in Hbuilt
        as (node & Hin & Han & <- & ->).
      rewrite Hperm in Hin. symmetry.
      rewrite (model_detail_Permutation _ _ _ _ Htests).
      by apply analyze_nodes_lookup_NoDup.
    - destruct ((analyze_nodes manifest2 package_name nodes2).2 !! name)
        as [built|] eqn:Hbuilt2; [|done].
      apply analyze_nodes_lookup_Some in Hbuilt2
        as (node & Hin & Han & <- & _).
      rewrite <- Hperm in Hin.
      destruct (analyze_nodes_lookup_is_Some manifest1 package_name nodes1
                  node Hin Han) as [? Hsome].
      congruence. }
  destruct (analyze_nodes manifest1 package_name nodes1)
    as [[[total1 with1] [enforced1 other1 issues1]] md1],
    (analyze_nodes manifest2 package_name nodes2)
    as [[[total2 with2] [enforced2 other2 issues2]] md2].
  simpl in *. subst.
  rewrite !(Permutation_length (filter_Permutation _ _ _ Hperm)).
  do 3 f_equal. apply (f_equal length), list_filter_iff. intros node.
  by rewrite (truthy_Permutation _ _
                (unit_tests_of_Permutation _ _ package_name node Htests)).
Qed.

(** Property X14. The analysis does not depend on the order of the nodes or
    of the unit tests in the manifest, provided the node ids are distinct
    and the analyzed nodes have distinct names. *)
Theorem analysis_order_independent (fnmatch : string → string → bool)
    fs1 fs2 manifest_path1 manifest_path2 manifest1 manifest2 package_name
    model_names model_paths has_tags any_tag exclude_tags test_type :
  fs1 manifest_path1 = ManifestFile manifest1 →
  fs2 manifest_path2 = ManifestFile manifest2 →
  Manifest.nodes manifest1 ≡ₚ Manifest.nodes manifest2 →
  Manifest.unit_tests manifest1 ≡ₚ Manifest.unit_tests manifest2 →
  NoDup (Manifest.nodes manifest1).*1 →
  NoDup (Node.name
         <$> analyzed_nodes fnmatch manifest1 package_name model_names
               model_paths has_tags any_tag exclude_tags test_type) →
  analyze_unit_tests_and_contracts fnmatch fs1 manifest_path1 package_name
    model_names model_paths has_tags any_tag exclude_tags test_type
  = analyze_unit_tests_and_contracts fnmatch fs2 manifest_path2 package_name
      model_names model_paths has_tags any_tag exclude_tags test_type.
Proof.
  intros Hfile1 Hfile2 Hnodes Htests Hids Hnames.
  rewrite (analyze_returns _ _ _ _ _ _ _ _ _ _ _ Hfile1).
  rewrite (analyze_returns _ _ _ _ _ _ _ _ _ _ _ Hfile2). simpl.
  assert (filter_nodes fnmatch manifest1 model_names model_paths has_tags
                       any_tag exclude_tags test_type
          ≡ₚ filter_nodes fnmatch manifest2 model_names model_paths has_tags
                          any_tag exclude_tags test_type) as Hfiltered
    by (unfold filter_nodes, values; by rewrite Hnodes).
  rewrite (analyze_nodes_Permutation manifest1 manifest2 package_name _ _
             Htests Hfiltered Hnames).
  rewrite !_analyze_column_tests_marks.
  by rewrite (apply_marks_Permutation _ _ _
                (column_marks_Permutation _ _ Hnodes Hids)).
Qed.

(** ** Nodes that share a name *)

Section SharedNames.
Variable fnmatch : string → string → bool.
Variables (fs : FileSystem) (manifest_path package_name : string).
Variables (model_names model_paths has_tags : list string) (any_tag : bool).
Variables (exclude_tags : list string) (test_type : string).

(** Property X15. When several analyzed nodes share a name, the returned
    detail of that name describes the last of them in the manifest. *)
Theorem last_node_wins manifest before node after :
  fs manifest_path = ManifestFile manifest →
  values (Manifest.nodes manifest) = (before ++ node :: after)%list →
  Node.resource_type node = "model" →
  Node.package_name node = package_name →
  Node.config node !! "materialized" ≠ Some "ephemeral" →
  _passes_filters fnmatch node model_names model_paths has_tags any_tag
                  exclude_tags test_type = true →
  (∀ later,
     later ∈ after →
     Node.resource_type later = "model" →
     Node.package_name later = package_name →
     Node.config later !! "materialized" ≠ Some "ephemeral" →
     _passes_filters fnmatch later model_names model_paths has_tags any_tag
                     exclude_tags test_type = true →
     Node.name later ≠ Node.name node) →
  ∃ unit_test_stats contract_stats model_details detail,
    analyze_unit_tests_and_contracts fnmatch fs manifest_path package_name
      model_names model_paths has_tags any_tag exclude_tags test_type
    = inr (unit_test_stats, contract_stats, model_details)
    ∧ model_details !! Node.name node = Some detail
    ∧ ModelDetail.path detail = Node.original_file_path node
    ∧ ModelDetail.columns detail = Node.columns node
    ∧ ModelDetail.contract_enforced detail = contract_enforced node.
Proof.
  intros Hfile Hsplit Hmodel Hpackage Hmat Hpass Hlater.
  assert (is_analyzed package_name node = true) as Han
    by (by apply is_analyzed_spec).
  set (passes := λ n,
         _passes_filters fnmatch n model_names model_paths has_tags any_tag
                         exclude_tags test_type).
  assert ((analyze_nodes manifest package_name
             (filter_nodes fnmatch manifest model_names model_paths has_tags
                           any_tag exclude_tags test_type)).2
            !! Node.name node
          = Some (model_detail manifest package_name node)) as Hbuilt.
  { unfold filter_nodes. rewrite Hsplit, filter_app.
    rewrite filter_cons_True by (by apply Is_true_true).
    apply analyze_nodes_last; [done|].
    intros later [Hlater_pass Hin]%list_elem_of_filter Hlater_an.
    apply is_analyzed_spec in Hlater_an as (? & ? & ?).
    apply Hlater; try done. by apply Is_true_true. }
  pose proof (apply_marks_marks_only (column_marks manifest)
                (analyze_nodes manifest package_name
                   (filter_nodes fnmatch manifest model_names model_paths
                      has_tags any_tag exclude_tags test_type)).2
                (Node.name node)) as Hext.
  rewrite Hbuilt in Hext.
  inversion Hext as [? marked (Hsame & _) Hold Hmarked|]; subst.
  do 3 eexists. exists (calculate_model marked).
  split; [by apply analyze_returns|]. simpl.
  rewrite lookup_fmap, _analyze_column_tests_marks, <- Hmarked.
  split; [done|]. rewrite Hsame. by simpl.
Qed.

End SharedNames.

(** ** Filters only narrow *)

Lemma length_filter_impl {A} (P Q : A → Prop) `{!∀ x, Decision (P x)}
    `{!∀ x, Decision (Q x)} (l : list A) :
  (∀ x, P x → Q x) → (length (filter P l) ≤ length (filter Q l))%nat.
Proof.
  intros Himpl. induction l as [|a l IH]; [done|].
  rewrite !filter_cons.
  destruct (decide (P a)) as [HP|HP], (decide (Q a)) as [HQ|HQ]; simpl;
    try lia.
  by destruct HQ; apply Himpl.
Qed.

Section Narrow.
Variable fnmatch : string → string → bool.
Variables (fs : FileSystem) (manifest_path package_name : string).
Variables (model_names model_paths has_tags : list string) (any_tag : bool).
Variables (exclude_tags : list string) (test_type : string).

Lemma passes_no_filters node any_tag' :
  Node.resource_type node ≠ "test" →
  _passes_filters fnmatch node [] [] [] any_tag' [] "all" = true.
Proof.
  intros Hnode. unfold _passes_filters. simpl.
  by rewrite (bool_decide_eq_false_2 _ Hnode).
Qed.

(** Property X16. Filters only narrow: the models of a filtered run are
    among the models of the run without filters, and its [total_models] is
    no larger. *)
Theorem filters_only_narrow unit_test_stats contract_stats model_details
    unit_test_stats0 contract_stats0 model_details0 :
  analyze_unit_tests_and_contracts fnmatch fs manifest_path package_name
    model_names model_paths has_tags any_tag exclude_tags test_type
  = inr (unit_test_stats, contract_stats, model_details) →
  analyze_unit_tests_and_contracts fnmatch fs manifest_path package_name
    [] [] [] false [] "all"
  = inr (unit_test_stats0, contract_stats0, model_details0) →
  dom model_details ⊆ dom model_details0
  ∧ (UnitTestStats.total_models unit_test_stats
     ≤ UnitTestStats.total_models unit_test_stats0)%nat.
Proof.
  intros Hrun Hrun0.
  destruct (analyze_returned_loaded fnmatch _ _ _ _ _ _ _ _ _ _ Hrun)
    as [manifest Hfile].
  rewrite (analyze_returns _ _ _ _ _ _ _ _ _ _ _ Hfile) in Hrun.
  rewrite (analyze_returns _ _ _ _ _ _ _ _ _ _ _ Hfile) in Hrun0.
  simpl in Hrun, Hrun0.
  injection Hrun as <- _ <-. injection Hrun0 as <- _ <-.
  assert (∀ node,
            node ∈ filter_nodes fnmatch manifest model_names model_paths
                     has_tags any_tag exclude_tags test_type →
            is_analyzed package_name node = true →
            node ∈ filter_nodes fnmatch manifest [] [] [] false [] "all")
    as Hsub.
  { intros node [_ Hin]%list_elem_of_filter Han.
    apply list_elem_of_filter. split; [|done]. apply Is_true_true.
    apply passes_no_filters. apply is_analyzed_spec in Han as (-> & _).
    done. }
  split.
  - intros name. rewrite !elem_of_dom, !lookup_fmap, !fmap_is_Some.
    rewrite !second_pass_keys. intros [built Hbuilt].
    apply analyze_nodes_lookup_Some in Hbuilt as (node & Hin & Han & <- & _).
    apply analyze_nodes_lookup_is_Some; auto.
  - match goal with
    | |- (UnitTestStats.total_models (analyze_nodes _ _ ?l1).1.1
          ≤ UnitTestStats.total_models (analyze_nodes _ _ ?l2).1.1)%nat =>
        destruct (analyze_nodes_stats manifest package_name l1) as (-> & _);
        destruct (analyze_nodes_stats manifest package_name l2) as (-> & _)
    end.
    unfold filter_nodes. rewrite !list_filter_filter.
    apply length_filter_impl. intros node [Han Hpass]. split; [done|].
    apply Is_true_true, passes_no_filters.
    rewrite andb_true_r in Han. apply Is_true_true in Han.
    apply is_analyzed_spec in Han as (-> & _). done.
Qed.

End Narrow.

(** ** The extra properties on the concrete manifests *)

Lemma orders_run :
  analyze_unit_tests_and_contracts fnmatch_wildcard
    (one_file target_manifest orders_manifest) target_manifest "jaffle_shop"
    [] [] [] false [] "all"
  = inr (UnitTestStats.mk 1 1, ContractStats.mk 0 1 [],
         {[ "orders" := orders_detail ]}).
Proof. vm_compute. reflexivity. Defined.

Lemma first_pass_columns_untested_witness :
  (analyze_nodes orders_manifest "jaffle_shop"
     (filter_nodes fnmatch_wildcard orders_manifest [] [] [] false []
        "all")).2 !! "orders"
  = Some (model_detail orders_manifest "jaffle_shop"
            (a_model "orders" ["id"; "status"] None))
  ∧ let detail :=
      model_detail orders_manifest "jaffle_shop"
        (a_model "orders" ["id"; "status"] None) in
    ModelDetail.tested_columns detail = 0
    ∧ ModelDetail.coverage_pct detail = 0%float
    ∧ ModelDetail.total_columns detail = length (ModelDetail.columns detail)
    ∧ ∀ col, ModelDetail.columns_test detail !! col
             = if decide (col ∈ ModelDetail.columns detail)
               then Some false else None.
Proof.
  assert ((analyze_nodes orders_manifest "jaffle_shop"
             (filter_nodes fnmatch_wildcard orders_manifest [] [] [] false []
                "all")).2 !! "orders"
          = Some (model_detail orders_manifest "jaffle_shop"
                    (a_model "orders" ["id"; "status"] None))) as Hlookup
    by (vm_compute; reflexivity).
  split; [exact Hlookup|].
  exact (first_pass_columns_untested fnmatch_wildcard orders_manifest
           "jaffle_shop" [] [] [] false [] "all" "orders" _ Hlookup).
Defined.

Lemma returned_columns_witness :
  (analyze_unit_tests_and_contracts fnmatch_wildcard
     (one_file target_manifest orders_manifest) target_manifest "jaffle_shop"
     [] [] [] false [] "all"
   = inr (UnitTestStats.mk 1 1, ContractStats.mk 0 1 [],
          {[ "orders" := orders_detail ]})
   ∧ ({[ "orders" := orders_detail ]} : gmap string ModelDetail.t) !! "orders"
     = Some orders_detail)
  ∧ (∀ col, is_Some (ModelDetail.columns_test orders_detail !! col)
            ↔ col ∈ ModelDetail.columns orders_detail)
  ∧ ModelDetail.total_columns orders_detail
    = length (ModelDetail.columns orders_detail)
  ∧ (ModelDetail.tested_columns orders_detail
     ≤ ModelDetail.total_columns orders_detail)%nat.
Proof.
  split; [split; [exact orders_run | reflexivity]|].
  exact (returned_columns fnmatch_wildcard
           (one_file target_manifest orders_manifest) target_manifest
           "jaffle_shop" [] [] [] false [] "all" _ _ _ "orders" orders_detail
           orders_run eq_refl).
Defined.

Lemma one_file_found manifest :
  one_file target_manifest manifest target_manifest = ManifestFile manifest.
Proof. reflexivity. Defined.

Lemma marked_columns_have_tests_witness :
  (one_file target_manifest orders_manifest target_manifest
   = ManifestFile orders_manifest
   ∧ analyze_unit_tests_and_contracts fnmatch_wildcard
       (one_file target_manifest orders_manifest) target_manifest
       "jaffle_shop" [] [] [] false [] "all"
     = inr (UnitTestStats.mk 1 1, ContractStats.mk 0 1 [],
            {[ "orders" := orders_detail ]})
   ∧ ({[ "orders" := orders_detail ]} : gmap string ModelDetail.t)
       !! "orders" = Some orders_detail
   ∧ ModelDetail.columns_test orders_detail !! "id" = Some true)
  ∧ ∃ test_node model_id model_node,
      test_node ∈ values (Manifest.nodes orders_manifest)
      ∧ Node.resource_type test_node = "test"
      ∧ model_id ∈ Node.depends_on_nodes test_node
      ∧ get model_id (Manifest.nodes orders_manifest) = Some model_node
      ∧ Node.name model_node = "orders"
      ∧ column_signal test_node = Some "id".
Proof.
  split; [split_and!; [reflexivity | exact orders_run | reflexivity..]|].
  exact (marked_columns_have_tests fnmatch_wildcard
           (one_file target_manifest orders_manifest) target_manifest
           "jaffle_shop" [] [] [] false [] "all" orders_manifest _ _ _
           "orders" orders_detail "id" eq_refl orders_run eq_refl eq_refl).
Defined.

Lemma orders_names_distinct :
  NoDup (Node.name
         <$> analyzed_nodes fnmatch_wildcard orders_manifest "jaffle_shop" []
               [] [] false [] "all").
Proof. apply (bool_decide_unpack _). by vm_compute. Defined.

Lemma model_details_size_witness :
  (one_file target_manifest orders_manifest target_manifest
   = ManifestFile orders_manifest
   ∧ analyze_unit_tests_and_contracts fnmatch_wildcard
       (one_file target_manifest orders_manifest) target_manifest
       "jaffle_shop" [] [] [] false [] "all"
     = inr (UnitTestStats.mk 1 1, ContractStats.mk 0 1 [],
            {[ "orders" := orders_detail ]}))
  ∧ let analyzed :=
      filter (λ node,
                Node.resource_type node = "model"
                ∧ Node.package_name node = "jaffle_shop"
                ∧ Node.config node !! "materialized" ≠ Some "ephemeral"
                ∧ _passes_filters fnmatch_wildcard node [] [] [] false []
                    "all" = true)
             (values (Manifest.nodes orders_manifest)) in
    (size ({[ "orders" := orders_detail ]} : gmap string ModelDetail.t)
     ≤ UnitTestStats.total_models (UnitTestStats.mk 1 1))%nat
    ∧ (NoDup (Node.name <$> analyzed) →
       size ({[ "orders" := orders_detail ]} : gmap string ModelDetail.t)
       = UnitTestStats.total_models (UnitTestStats.mk 1 1)).
Proof.
  split; [split; [reflexivity | exact orders_run]|].
  exact (model_details_size fnmatch_wildcard
           (one_file target_manifest orders_manifest) target_manifest
           "jaffle_shop" [] [] [] false [] "all" orders_manifest _ _ _
           eq_refl orders_run).
Defined.

Lemma analysis_order_independent_witness :
  (one_file target_manifest orders_manifest target_manifest
   = ManifestFile orders_manifest
   ∧ one_file target_manifest orders_manifest_reversed target_manifest
     = ManifestFile orders_manifest_reversed
   ∧ Manifest.nodes orders_manifest
     ≡ₚ Manifest.nodes orders_manifest_reversed
   ∧ Manifest.unit_tests orders_manifest
     ≡ₚ Manifest.unit_tests orders_manifest_reversed
   ∧ NoDup (Manifest.nodes orders_manifest).*1
   ∧ NoDup (Node.name
            <$> analyzed_nodes fnmatch_wildcard orders_manifest "jaffle_shop"
                  [] [] [] false [] "all"))
  ∧ analyze_unit_tests_and_contracts fnmatch_wildcard
      (one_file target_manifest orders_manifest) target_manifest
      "jaffle_shop" [] [] [] false [] "all"
    = analyze_unit_tests_and_contracts fnmatch_wildcard
        (one_file target_manifest orders_manifest_reversed) target_manifest
        "jaffle_shop" [] [] [] false [] "all".
Proof.
  assert (Manifest.nodes orders_manifest
          ≡ₚ Manifest.nodes orders_manifest_reversed) as Hnodes
    by apply Permutation_swap.
  assert (NoDup (Manifest.nodes orders_manifest).*1) as Hids
    by (apply (bool_decide_unpack _); by vm_compute).
  split; [split_and!; try done; exact orders_names_distinct|].
  exact (analysis_order_independent fnmatch_wildcard
           (one_file target_manifest orders_manifest)
           (one_file target_manifest orders_manifest_reversed)
           target_manifest target_manifest orders_manifest
           orders_manifest_reversed "jaffle_shop" [] [] [] false [] "all"
           eq_refl eq_refl Hnodes (reflexivity _) Hids
           orders_names_distinct).
Defined.

Lemma unit_test_counts_witness :
  (one_file target_manifest orders_manifest target_manifest
   = ManifestFile orders_manifest
   ∧ analyze_unit_tests_and_contracts fnmatch_wildcard
       (one_file target_manifest orders_manifest) target_manifest
       "jaffle_shop" [] [] [] false [] "all"
     = inr (UnitTestStats.mk 1 1, ContractStats.mk 0 1 [],
            {[ "orders" := orders_detail ]}))
  ∧ let tests_of name :=
      filter (λ test, UnitTest.model test = name
                      ∧ UnitTest.package_name test = "jaffle_shop")
             (values (Manifest.unit_tests orders_manifest)) in
    UnitTestStats.models_with_unit_tests (UnitTestStats.mk 1 1)
    = length (filter (λ node, tests_of (Node.name node) ≠ [])
                     (analyzed_nodes fnmatch_wildcard orders_manifest
                        "jaffle_shop" [] [] [] false [] "all"))
    ∧ ∀ name detail,
        ({[ "orders" := orders_detail ]} : gmap string ModelDetail.t)
          !! name = Some detail →
        ModelDetail.unit_tests detail = length (tests_of name)
        ∧ ModelDetail.unit_test_pct detail
          = if decide (ModelDetail.unit_tests detail = 0)
            then 0%float else 100%float.
Proof.
  split; [split; [reflexivity | exact orders_run]|].
  exact (unit_test_counts fnmatch_wildcard
           (one_file target_manifest orders_manifest) target_manifest
           "jaffle_shop" [] [] [] false [] "all" orders_manifest _ _ _
           eq_refl orders_run).
Defined.

Lemma duplicate_run :
  analyze_unit_tests_and_contracts fnmatch_wildcard
    (one_file target_manifest duplicate_manifest) target_manifest
    "jaffle_shop" [] [] [] false [] "all"
  = inr (UnitTestStats.mk 2 0, ContractStats.mk 1 1 [],
         {[ "orders" := duplicate_detail ]}).
Proof. vm_compute. reflexivity. Defined.

Lemma contract_counts_witness :
  (one_file target_manifest duplicate_manifest target_manifest
   = ManifestFile duplicate_manifest
   ∧ analyze_unit_tests_and_contracts fnmatch_wildcard
       (one_file target_manifest duplicate_manifest) target_manifest
       "jaffle_shop" [] [] [] false [] "all"
     = inr (UnitTestStats.mk 2 0, ContractStats.mk 1 1 [],
            {[ "orders" := duplicate_detail ]}))
  ∧ let analyzed :=
      analyzed_nodes fnmatch_wildcard duplicate_manifest "jaffle_shop" [] []
        [] false [] "all" in
    let enforced node :=
      ∃ contract, Node.contract node = Some contract
                  ∧ Contract.enforced contract = true in
    ContractStats.with_contracts (ContractStats.mk 1 1 [])
    = length (filter (λ node, contract_enforced node) analyzed)
    ∧ ContractStats.without_contracts (ContractStats.mk 1 1 [])
      = length (filter (λ node, ¬ contract_enforced node) analyzed)
    ∧ ContractStats.contract_issues (ContractStats.mk 1 1 []) = []
    ∧ ∀ node, contract_enforced node = true ↔ enforced node.
Proof.
  split; [split; [reflexivity | exact duplicate_run]|].
  exact (contract_counts fnmatch_wildcard
           (one_file target_manifest duplicate_manifest) target_manifest
           "jaffle_shop" [] [] [] false [] "all" duplicate_manifest _ _ _
           eq_refl duplicate_run).
Defined.

Lemma orders_not_in_other_package node :
  node ∈ values (Manifest.nodes orders_manifest) →
  ¬ (Node.resource_type node = "model"
     ∧ Node.package_name node = "other"
     ∧ Node.config node !! "materialized" ≠ Some "ephemeral"
     ∧ _passes_filters fnmatch_wildcard node [] [] [] false [] "all" = true).
Proof.
  unfold values. simpl. rewrite !elem_of_cons, elem_of_nil.
  intros [->|[->|[]]] (_ & Hpackage & _); discriminate.
Defined.

Lemma nothing_analyzed_witness :
  (one_file target_manifest orders_manifest target_manifest
   = ManifestFile orders_manifest
   ∧ ∀ node,
       node ∈ values (Manifest.nodes orders_manifest) →
       ¬ (Node.resource_type node = "model"
          ∧ Node.package_name node = "other"
          ∧ Node.config node !! "materialized" ≠ Some "ephemeral"
          ∧ _passes_filters fnmatch_wildcard node [] [] [] false [] "all"
            = true))
  ∧ analyze_unit_tests_and_contracts fnmatch_wildcard
      (one_file target_manifest orders_manifest) target_manifest "other"
      [] [] [] false [] "all"
    = inr (UnitTestStats.mk 0 0, ContractStats.mk 0 0 [], ∅).
Proof.
  split; [split; [reflexivity | exact orders_not_in_other_package]|].
  exact (nothing_analyzed fnmatch_wildcard
           (one_file target_manifest orders_manifest) target_manifest
           "other" [] [] [] false [] "all" orders_manifest eq_refl
           orders_not_in_other_package).
Defined.

Lemma returned_details_fixed_point_witness :
  (one_file target_manifest orders_manifest target_manifest
   = ManifestFile orders_manifest
   ∧ analyze_unit_tests_and_contracts fnmatch_wildcard
       (one_file target_manifest orders_manifest) target_manifest
       "jaffle_shop" [] [] [] false [] "all"
     = inr (UnitTestStats.mk 1 1, ContractStats.mk 0 1 [],
            {[ "orders" := orders_detail ]}))
  ∧ (_calculate_coverage_stats
       (_analyze_column_tests orders_manifest
          {[ "orders" := orders_detail ]}) ∅).1
    = {[ "orders" := orders_detail ]}.
Proof.
  split; [split; [reflexivity | exact orders_run]|].
  exact (returned_details_fixed_point fnmatch_wildcard
           (one_file target_manifest orders_manifest) target_manifest
           "jaffle_shop" [] [] [] false [] "all" orders_manifest _ _ _ ∅
           eq_refl orders_run).
Defined.

Lemma no_later_orders later :
  later ∈ ([] : list Node.t) →
  Node.resource_type later = "model" →
  Node.package_name later = "jaffle_shop" →
  Node.config later !! "materialized" ≠ Some "ephemeral" →
  _passes_filters fnmatch_wildcard later [] [] [] false [] "all" = true →
  Node.name later ≠ Node.name second_orders.
Proof. intros Hin. by apply elem_of_nil in Hin. Defined.

Lemma materialized_table :
  Node.config second_orders !! "materialized" ≠ Some "ephemeral".
Proof. by vm_compute. Defined.

Lemma last_node_wins_witness :
  (one_file target_manifest duplicate_manifest target_manifest
   = ManifestFile duplicate_manifest
   ∧ values (Manifest.nodes duplicate_manifest)
     = ([first_orders] ++ second_orders :: [])%list
   ∧ Node.resource_type second_orders = "model"
   ∧ Node.package_name second_orders = "jaffle_shop"
   ∧ Node.config second_orders !! "materialized" ≠ Some "ephemeral"
   ∧ _passes_filters fnmatch_wildcard second_orders [] [] [] false [] "all"
     = true)
  ∧ ∃ unit_test_stats contract_stats model_details detail,
      analyze_unit_tests_and_contracts fnmatch_wildcard
        (one_file target_manifest duplicate_manifest) target_manifest
        "jaffle_shop" [] [] [] false [] "all"
      = inr (unit_test_stats, contract_stats, model_details)
      ∧ model_details !! Node.name second_orders = Some detail
      ∧ ModelDetail.path detail = Node.original_file_path second_orders
      ∧ ModelDetail.columns detail = Node.columns second_orders
      ∧ ModelDetail.contract_enforced detail
        = contract_enforced second_orders.
Proof.
  split; [split_and!; try reflexivity; exact materialized_table|].
  exact (last_node_wins fnmatch_wildcard
           (one_file target_manifest duplicate_manifest) target_manifest
           "jaffle_shop" [] [] [] false [] "all" duplicate_manifest
           [first_orders] second_orders [] eq_refl eq_refl eq_refl eq_refl
           materialized_table eq_refl no_later_orders).
Defined.

Lemma staging_run :
  analyze_unit_tests_and_contracts fnmatch_wildcard
    (one_file target_manifest orders_manifest) target_manifest "jaffle_shop"
    ["stg_*"] [] [] false [] "all"
  = inr (UnitTestStats.mk 0 0, ContractStats.mk 0 0 [], ∅).
Proof. vm_compute. reflexivity. Defined.

Lemma filters_only_narrow_witness :
  (analyze_unit_tests_and_contracts fnmatch_wildcard
     (one_file target_manifest orders_manifest) target_manifest "jaffle_shop"
     ["stg_*"] [] [] false [] "all"
   = inr (UnitTestStats.mk 0 0, ContractStats.mk 0 0 [], ∅)
   ∧ analyze_unit_tests_and_contracts fnmatch_wildcard
       (one_file target_manifest orders_manifest) target_manifest
       "jaffle_shop" [] [] [] false [] "all"
     = inr (UnitTestStats.mk 1 1, ContractStats.mk 0 1 [],
            {[ "orders" := orders_detail ]}))
  ∧ dom (∅ : gmap string ModelDetail.t)
    ⊆ dom ({[ "orders" := orders_detail ]} : gmap string ModelDetail.t)
  ∧ (UnitTestStats.total_models (UnitTestStats.mk 0 0)
     ≤ UnitTestStats.total_models (UnitTestStats.mk 1 1))%nat.
Proof.
  split; [split; [exact staging_run | exact orders_run]|].
  exact (filters_only_narrow fnmatch_wildcard
           (one_file target_manifest orders_manifest) target_manifest
           "jaffle_shop" ["stg_*"] [] [] false [] "all" _ _ _ _ _ _
           staging_run orders_run).
Defined.

(** With two analyzed models of the same name the order of the nodes does
    matter: the later one is kept. *)
Example shared_name_order_matters :
  analyze_unit_tests_and_contracts fnmatch_wildcard
    (one_file target_manifest duplicate_manifest) target_manifest
    "jaffle_shop" [] [] [] false [] "all"
  ≠ analyze_unit_tests_and_contracts fnmatch_wildcard
      (one_file target_manifest
         (Manifest.mk (reverse (Manifest.nodes duplicate_manifest)) []))
      target_manifest "jaffle_shop" [] [] [] false [] "all".
Proof.
  rewrite duplicate_run. intros Hrun.
  apply (f_equal (λ run,
                    match run with
                    | inr (_, _, model_details) =>
                        ModelDetail.total_columns
                        <$> model_details !! "orders"
                    | inl _ => None
                    end)) in Hrun.
  by vm_compute in Hrun.
Qed.
